(** * Touch Log Viewer: a shallow embedding of [scripts/touch_log_viewer.py]

    The development models the class [TouchLogViewer]: the registry of views
    ([build_available_views]), the process supervisor ([kill_current_process]
    and the [start_*] methods), the view switch ([switch_view]), the two
    input loops of [listen_for_touches] and [cleanup].  The model comes
    first, then the vocabulary of the statements, then the proofs.

    Modelling conventions.
    - The mutable attributes of [self] and the part of the operating system
      the methods act on (child processes, temporary files, tmux sessions)
      live in one record, [World]; every method is a computation in a small
      state-and-exception monad [M].  State changes made before an exception
      is raised are kept, as in Python.
    - The host the program runs on is a record [Host]: which programs are on
      the PATH, which log files can be read, how a child process reacts to
      SIGTERM, whether a touch screen and a terminal are there.
    - [subprocess.run] follows CPython: it raises [ValueError] when
      [capture_output=True] is combined with an explicit [stdout] or [stderr]
      argument, and [FileNotFoundError] when the program is not on the PATH;
      [subprocess.Popen] with an argument list raises [FileNotFoundError]
      likewise.
    - A child process leaves the process table only when it is signalled.
    - Time stamps and durations are exact rationals, in seconds; the rounding
      of binary floating point is outside the model.
    - The end of an input list stands for the arrival of [KeyboardInterrupt].
    - The [print] calls of [switch_view], [kill_current_process], [cleanup]
      and the input loops are kept on a console field; the banner lines of
      the [start_*] methods and of the constructor are left out.
    - Of the legacy [start_*] methods no view refers to, only
      [start_dev_access_only] is modelled.
    - [format_compact_apache_log], the function of the formatter script
      and [find_touchscreen] are modelled as pure functions, after the
      methods.
    - Strings are ASCII. *)

From Stdlib Require Import List String Ascii Bool Arith ZArith QArith Lia.
From Stdlib Require Import DecimalString Permutation Lqa.
Import ListNotations.
Close Scope Q_scope.
Close Scope Z_scope.
Open Scope string_scope.

(* ------------------------------------------------------------------ *)
(** * The model *)

(* ------------------------------------------------------------------ *)
(** ** String helpers (Python [str] methods on ASCII) *)

Module PyStr.

Definition is_lower (c : ascii) : bool :=
  let n := nat_of_ascii c in ((97 <=? n) && (n <=? 122))%nat.

Definition is_upper (c : ascii) : bool :=
  let n := nat_of_ascii c in ((65 <=? n) && (n <=? 90))%nat.

Definition is_cased (c : ascii) : bool := is_lower c || is_upper c.

Definition to_lower (c : ascii) : ascii :=
  if is_upper c then ascii_of_nat (nat_of_ascii c + 32) else c.

Definition to_upper (c : ascii) : ascii :=
  if is_lower c then ascii_of_nat (nat_of_ascii c - 32) else c.

(** [s.lower()] *)
Fixpoint lower (s : string) : string :=
  match s with
  | EmptyString => EmptyString
  | String c r => String (to_lower c) (lower r)
  end.

(** [s.upper()] *)
Fixpoint upper (s : string) : string :=
  match s with
  | EmptyString => EmptyString
  | String c r => String (to_upper c) (upper r)
  end.

(** [s.replace(c, d)] for one-character [c] and [d]. *)
Fixpoint replace (c d : ascii) (s : string) : string :=
  match s with
  | EmptyString => EmptyString
  | String x r => String (if Ascii.eqb x c then d else x) (replace c d r)
  end.

(** [s.title()]: a cased character is upper-cased when the character before
    it is not cased, lower-cased otherwise. *)
Fixpoint title_from (prev_cased : bool) (s : string) : string :=
  match s with
  | EmptyString => EmptyString
  | String x r =>
      String (if prev_cased then to_lower x else to_upper x)
             (title_from (is_cased x) r)
  end.

Definition title (s : string) : string := title_from false s.

(** [sub in s] *)
Fixpoint contains (sub s : string) : bool :=
  String.prefix sub s ||
  match s with
  | EmptyString => false
  | String _ r => contains sub r
  end.

(** [str(n)] for a non-negative integer. *)
Definition str (n : nat) : string := NilEmpty.string_of_uint (Nat.to_uint n).

(** Truthiness of an optional string: [None] and [''] are falsy. *)
Definition truthy (o : option string) : bool :=
  match o with
  | Some (String _ _) => true
  | _ => false
  end.

End PyStr.

(* ------------------------------------------------------------------ *)
(** ** Dictionaries in insertion order *)

Definition dict := list (string * string).

Fixpoint dict_get (d : dict) (k : string) : option string :=
  match d with
  | [] => None
  | (k', v) :: r => if String.eqb k k' then Some v else dict_get r k
  end.

(** [k in d] *)
Definition dict_mem (d : dict) (k : string) : bool :=
  match dict_get d k with Some _ => true | None => false end.

(* ------------------------------------------------------------------ *)
(** ** Exceptions, events, the world *)

Inductive exn : Type :=
| ValueError
| FileNotFoundError
| IndexError
| TermiosError
| SystemExit (code : Z).

(** [except Exception] does not catch [SystemExit]; a bare [except] does. *)
Definition is_Exception (e : exn) : bool :=
  match e with
  | SystemExit _ => false
  | _ => true
  end.

Definition pid := nat.

(** A command line: an argument vector, or a string for [shell=True]. *)
Inductive cmdline : Type :=
| Argv (argv : list string)
| Shell (cmd : string).

(** What the program does to the outside, in the order it does it. *)
Inductive event : Type :=
| Run (argv : list string)            (* subprocess.run ran a program *)
| Spawn (p : pid) (c : cmdline)       (* subprocess.Popen started a child *)
| Terminate (p : pid)                 (* Popen.terminate *)
| Poll (p : pid)                      (* Popen.poll *)
| Kill (p : pid)                      (* Popen.kill *)
| Sleep (d : Q)                       (* time.sleep *)
| MkTemp (path : string)              (* NamedTemporaryFile(delete=False) *)
| Unlink (path : string).             (* os.unlink *)

(** The lines written with [print] that the development observes. *)
Inductive report : Type :=
| SwitchingTo (index : nat) (view_name : string)  (* "Switching to view i/n: name" *)
| NextTouch (view_name : string)                  (* "Next touch will show: name" *)
| ErrorStartingView (e : exn)                     (* "Error starting view: e" *)
| ErrorKillingProcess (e : exn)                   (* "Error killing process: e" *)
| TouchDetected                                   (* "Touch detected! Switching view..." *)
| KeySwitching                                    (* "Switching view..." *)
| LogsNotFound (site_prefix : string)             (* "Logs for p not found!" *)
| Exiting                                         (* "Exiting..." *)
| CleaningUp                                      (* "Cleaning up..." *)
| Goodbye.                                        (* "Goodbye!" *)

(** One selectable view: the closure stored under ['command'] is one of the
    bound methods or lambdas that [build_available_views] writes. *)
Inductive command : Type :=
| start_htop_cmd
| start_top_cmd
| start_single_log_cmd (path : string)
| start_site_logs_cmd (site_prefix : string)
| start_tmux_apache_view_cmd
| start_tmux_multiview_cmd
| start_multitail_combined_cmd
| start_pi_monitor_cmd.

Record View : Type := mkView { name : string; view_command : command }.

Record Host : Type := mkHost {
  installed : string -> bool;     (* the program is found on the PATH *)
  log_readable : string -> bool;  (* exists, is a file, can be opened *)
  os_access_R : string -> bool;   (* os.access(path, os.R_OK) *)
  exits_on_term : pid -> bool;    (* the child is gone 0.5 s after SIGTERM *)
  touchscreen_found : bool;       (* evdev present and a device was found *)
  stdin_is_tty : bool             (* termios calls on stdin succeed *)
}.

Record World : Type := mkWorld {
  (* attributes of self *)
  current_view : nat;
  current_process : option pid;
  temp_scripts : list string;
  log_paths : dict;
  views : list View;
  (* operating system *)
  running : list pid;             (* live children of the program *)
  files : list string;            (* temporary files on disk *)
  sessions : list string;         (* tmux sessions *)
  next_pid : pid;
  next_tmp : nat;
  (* observations *)
  trace : list event;
  console : list report
}.

Definition set_current_view (v : nat) (w : World) : World :=
  mkWorld v (current_process w) (temp_scripts w) (log_paths w) (views w)
          (running w) (files w) (sessions w) (next_pid w) (next_tmp w)
          (trace w) (console w).

Definition set_current_process (p : option pid) (w : World) : World :=
  mkWorld (current_view w) p (temp_scripts w) (log_paths w) (views w)
          (running w) (files w) (sessions w) (next_pid w) (next_tmp w)
          (trace w) (console w).

Definition set_temp_scripts (l : list string) (w : World) : World :=
  mkWorld (current_view w) (current_process w) l (log_paths w) (views w)
          (running w) (files w) (sessions w) (next_pid w) (next_tmp w)
          (trace w) (console w).

Definition set_log_paths (d : dict) (w : World) : World :=
  mkWorld (current_view w) (current_process w) (temp_scripts w) d (views w)
          (running w) (files w) (sessions w) (next_pid w) (next_tmp w)
          (trace w) (console w).

Definition set_views (vs : list View) (w : World) : World :=
  mkWorld (current_view w) (current_process w) (temp_scripts w) (log_paths w) vs
          (running w) (files w) (sessions w) (next_pid w) (next_tmp w)
          (trace w) (console w).

Definition set_running (l : list pid) (w : World) : World :=
  mkWorld (current_view w) (current_process w) (temp_scripts w) (log_paths w)
          (views w) l (files w) (sessions w) (next_pid w) (next_tmp w)
          (trace w) (console w).

Definition set_files (l : list string) (w : World) : World :=
  mkWorld (current_view w) (current_process w) (temp_scripts w) (log_paths w)
          (views w) (running w) l (sessions w) (next_pid w) (next_tmp w)
          (trace w) (console w).

Definition set_sessions (l : list string) (w : World) : World :=
  mkWorld (current_view w) (current_process w) (temp_scripts w) (log_paths w)
          (views w) (running w) (files w) l (next_pid w) (next_tmp w)
          (trace w) (console w).

Definition set_next_pid (n : pid) (w : World) : World :=
  mkWorld (current_view w) (current_process w) (temp_scripts w) (log_paths w)
          (views w) (running w) (files w) (sessions w) n (next_tmp w)
          (trace w) (console w).

Definition set_next_tmp (n : nat) (w : World) : World :=
  mkWorld (current_view w) (current_process w) (temp_scripts w) (log_paths w)
          (views w) (running w) (files w) (sessions w) (next_pid w) n
          (trace w) (console w).

Definition emit (e : event) (w : World) : World :=
  mkWorld (current_view w) (current_process w) (temp_scripts w) (log_paths w)
          (views w) (running w) (files w) (sessions w) (next_pid w) (next_tmp w)
          (trace w ++ [e]) (console w).

Definition print (s : report) (w : World) : World :=
  mkWorld (current_view w) (current_process w) (temp_scripts w) (log_paths w)
          (views w) (running w) (files w) (sessions w) (next_pid w) (next_tmp w)
          (trace w) (console w ++ [s]).

(* ------------------------------------------------------------------ *)
(** ** The monad of methods *)

Inductive result (A : Type) : Type :=
| Ok (a : A)
| Raise (e : exn).
Arguments Ok {A} a.
Arguments Raise {A} e.

Definition M (A : Type) : Type := World -> result A * World.

Definition ret {A} (a : A) : M A := fun w => (Ok a, w).

Definition bind {A B} (m : M A) (k : A -> M B) : M B :=
  fun w => match m w with
           | (Ok a, w') => k a w'
           | (Raise e, w') => (Raise e, w')
           end.

Definition raise {A} (e : exn) : M A := fun w => (Raise e, w).

Definition get : M World := fun w => (Ok w, w).

Definition modify (f : World -> World) : M unit := fun w => (Ok tt, f w).

(** [try: m  except <filter> as e: handler e] *)
Definition try_except {A} (m : M A) (catches : exn -> bool)
           (handler : exn -> M A) : M A :=
  fun w => match m w with
           | (Ok a, w') => (Ok a, w')
           | (Raise e, w') =>
               if catches e then handler e w' else (Raise e, w')
           end.

(** [try: m  finally: f] *)
Definition try_finally {A} (m : M A) (f : M unit) : M A :=
  fun w => match m w with
           | (r, w') =>
               match f w' with
               | (Ok _, w'') => (r, w'')
               | (Raise e, w'') => (Raise e, w'')
               end
           end.

Declare Scope py_scope.
Delimit Scope py_scope with py.
Notation "x <- m ;; k" := (bind m (fun x => k))
  (at level 61, m at next level, right associativity) : py_scope.
Notation "m ;; k" := (bind m (fun _ => k))
  (at level 61, right associativity) : py_scope.
Open Scope py_scope.

Definition when (b : bool) (m : M unit) : M unit := if b then m else ret tt.

(** [for x in l: body x] *)
Fixpoint for_each {A} (l : list A) (body : A -> M unit) : M unit :=
  match l with
  | [] => ret tt
  | x :: r => body x ;; for_each r body
  end.

Definition bare_except (_ : exn) : bool := true.

(* ------------------------------------------------------------------ *)
(** ** Operating-system primitives *)

Inductive redirect : Type := DEVNULL | PIPE.

Definition is_some {A} (o : option A) : bool :=
  match o with Some _ => true | None => false end.

Definition mem_str (s : string) (l : list string) : bool :=
  existsb (String.eqb s) l.

Definition remove_str (s : string) (l : list string) : list string :=
  filter (fun x => negb (String.eqb s x)) l.

Definition remove_pid (p : pid) (l : list pid) : list pid :=
  filter (fun x => negb (Nat.eqb p x)) l.

Definition dquote : string := String (ascii_of_nat 34) EmptyString.

Section Methods.

Variable h : Host.

(** What [tmux] does to the session table, with its return code:
    [kill-session -t s] removes [s] (and fails when there is none),
    [new-session -d -s s] adds [s] (and fails on a duplicate). *)
Definition tmux_sessions (args : list string) (l : list string)
  : nat * list string :=
  match args with
  | [sub; flag; s] =>
      if String.eqb sub "kill-session" && String.eqb flag "-t" then
        if mem_str s l then (0, remove_str s l) else (1, l)
      else (0, l)
  | [sub; d; flag; s] =>
      if String.eqb sub "new-session" && String.eqb d "-d" &&
         String.eqb flag "-s" then
        if mem_str s l then (1, l) else (0, List.app l [s])
      else (0, l)
  | _ => (0, l)
  end.

(** What a program that ran to completion did and returned: [which]
    reports whether its argument is on the PATH, [tmux] acts on the
    session table. *)
Definition run_program (prog : string) (args : list string) : M nat :=
  fun w =>
    if String.eqb prog "which" then
      (Ok (if installed h (hd "" args) then 0 else 1), w)
    else if String.eqb prog "tmux" then
      let r := tmux_sessions args (sessions w) in
      (Ok (fst r), set_sessions (snd r) w)
    else (Ok 0, w).

(** [subprocess.run(argv, capture_output=.., stderr=..)], returning the
    return code. *)
Definition subprocess_run (argv : list string) (capture_output : bool)
           (stderr : option redirect) : M nat :=
  if capture_output && is_some stderr then raise ValueError
  else match argv with
       | [] => raise IndexError
       | prog :: args =>
           if installed h prog
           then modify (emit (Run argv)) ;; run_program prog args
           else raise FileNotFoundError
       end.

Definition spawn (c : cmdline) : M pid :=
  fun w =>
    let p := next_pid w in
    (Ok p, emit (Spawn p c)
             (set_running (running w ++ [p]) (set_next_pid (S p) w))).

(** [subprocess.Popen(cmd)] and [subprocess.Popen(cmd, shell=True)] *)
Definition Popen (c : cmdline) : M pid :=
  match c with
  | Argv [] => raise IndexError
  | Argv (prog :: _) =>
      if installed h prog then spawn c else raise FileNotFoundError
  | Shell _ => spawn c
  end.

(** [Popen.terminate]: the child is gone at the next [poll] iff it obeys
    SIGTERM within the grace period. *)
Definition terminate (p : pid) : M unit :=
  modify (fun w =>
    emit (Terminate p)
      (if exits_on_term h p then set_running (remove_pid p (running w)) w
       else w)).

(** [Popen.poll() is None] *)
Definition poll_is_None (p : pid) : M bool :=
  fun w => (Ok (existsb (Nat.eqb p) (running w)), emit (Poll p) w).

Definition kill (p : pid) : M unit :=
  modify (fun w => emit (Kill p) (set_running (remove_pid p (running w)) w)).

Definition time_sleep (d : Q) : M unit := modify (emit (Sleep d)).

(** [tempfile.NamedTemporaryFile(mode='w', suffix=.., delete=False)]
    followed by the write, the close and [os.chmod]. *)
Definition mktemp (suffix : string) : M string :=
  fun w =>
    let path := "/tmp/tmp" ++ PyStr.str (next_tmp w) ++ suffix in
    (Ok path, emit (MkTemp path)
                (set_files (files w ++ [path])
                   (set_next_tmp (S (next_tmp w)) w))).

Definition os_unlink (path : string) : M unit :=
  fun w =>
    if mem_str path (files w)
    then (Ok tt, emit (Unlink path) (set_files (remove_str path (files w)) w))
    else (Raise FileNotFoundError, w).

(* ------------------------------------------------------------------ *)
(** ** Methods of [TouchLogViewer] *)

Definition possible_logs : dict :=
  [ ("syslog", "/var/log/syslog");
    ("auth", "/var/log/auth.log");
    ("kern", "/var/log/kern.log");
    ("daemon", "/var/log/daemon.log");
    ("messages", "/var/log/messages");
    ("zemia_access", "/var/log/apache2/zemia-access.log");
    ("zemia_error", "/var/log/apache2/zemia-error.log");
    ("dev_zemia_access", "/var/log/apache2/dev-zemia-access.log");
    ("dev_zemia_error", "/var/log/apache2/dev-zemia-error.log");
    ("apache_access", "/var/log/apache2/access.log");
    ("apache_error", "/var/log/apache2/error.log");
    ("apache_other_vhosts", "/var/log/apache2/other_vhosts_access.log");
    ("nginx_access", "/var/log/nginx/access.log");
    ("nginx_error", "/var/log/nginx/error.log");
    ("apache_access_alt", "/var/log/httpd/access_log");
    ("apache_error_alt", "/var/log/httpd/error_log");
    ("custom_app", "/home/pi/logs/app.log") ].

Definition detect_available_logs : dict :=
  filter (fun kv => log_readable h (snd kv)) possible_logs.

Definition create_formatter_script : M string :=
  temp_file_name <- mktemp ".py" ;;
  modify (fun w => set_temp_scripts (temp_scripts w ++ [temp_file_name]) w) ;;
  ret temp_file_name.

Definition check_command (command : string) : M bool :=
  try_except
    (returncode <- subprocess_run ["which"; command] true (Some DEVNULL) ;;
     ret (Nat.eqb returncode 0))
    bare_except
    (fun _ => ret false).

Definition kill_session (s : string) : list string :=
  ["tmux"; "kill-session"; "-t"; s].

Definition kill_current_process : M unit :=
  w <- get ;;
  match current_process w with
  | None => ret tt
  | Some p =>
      try_finally
        (try_except
           (subprocess_run (kill_session "logmonitoring") true None ;;
            subprocess_run (kill_session "apachelogs") true None ;;
            terminate p ;;
            time_sleep (1 # 2) ;;
            alive <- poll_is_None p ;;
            when alive (kill p))
           is_Exception
           (fun e => modify (print (ErrorKillingProcess e))))
        (modify (set_current_process None))
  end.

Definition set_process (p : pid) : M unit :=
  modify (set_current_process (Some p)).

Definition start_single_log (log_path : string) : M unit :=
  let lp := PyStr.lower log_path in
  if PyStr.contains "access" lp &&
     (PyStr.contains "apache" lp || PyStr.contains "zemia" lp)
  then
    formatter_script <- create_formatter_script ;;
    let cmd :=
      if os_access_R h log_path
      then "sudo tail -f " ++ log_path ++ " | python3 " ++ formatter_script
      else "tail -f " ++ log_path ++ " | python3 " ++ formatter_script in
    p <- Popen (Shell cmd) ;;
    set_process p
  else
    let cmd :=
      if os_access_R h log_path
      then ["sudo"; "tail"; "-f"; log_path]
      else ["tail"; "-f"; log_path] in
    p <- Popen (Argv cmd) ;;
    set_process p.

Definition start_htop : M unit :=
  p <- Popen (Argv ["htop"]) ;; set_process p.

Definition start_top : M unit :=
  p <- Popen (Argv ["top"]) ;; set_process p.

(** [enumerate(l)] *)
Definition enumerate {A} (l : list A) : list (nat * A) :=
  combine (seq 0 (List.length l)) l.

Definition send_keys (pane : nat) (cmd : string) : list string :=
  ["tmux"; "send-keys"; "-t"; PyStr.str pane; cmd; "Enter"].

Definition banner (label : string) : string :=
  "echo " ++ dquote ++ "=== " ++ label ++ " ===" ++ dquote.

Definition start_tmux_multiview : M unit :=
  subprocess_run (kill_session "logmonitoring") true (Some DEVNULL) ;;
  subprocess_run ["tmux"; "new-session"; "-d"; "-s"; "logmonitoring"] false None ;;
  w <- get ;;
  let available_logs := firstn 4 (log_paths w) in
  when (Nat.ltb 1 (List.length available_logs))
    (subprocess_run ["tmux"; "split-window"; "-h"] false None ;; ret tt) ;;
  when (Nat.ltb 2 (List.length available_logs))
    (subprocess_run ["tmux"; "select-pane"; "-t"; "0"] false None ;;
     subprocess_run ["tmux"; "split-window"; "-v"] false None ;; ret tt) ;;
  when (Nat.ltb 3 (List.length available_logs))
    (subprocess_run ["tmux"; "select-pane"; "-t"; "2"] false None ;;
     subprocess_run ["tmux"; "split-window"; "-v"] false None ;; ret tt) ;;
  for_each (enumerate available_logs) (fun ikv =>
    let i := fst ikv in
    let log_name := fst (snd ikv) in
    let path := snd (snd ikv) in
    let label := PyStr.replace "_" " " (PyStr.upper log_name) in
    if PyStr.contains "access" (PyStr.lower log_name) &&
       (PyStr.contains "apache" (PyStr.lower path) ||
        PyStr.contains "zemia" (PyStr.lower path))
    then
      formatter_script <- create_formatter_script ;;
      subprocess_run
        (send_keys i (banner (label ++ " (COMPACT)") ++ " && sudo tail -f " ++
                      path ++ " | python3 " ++ formatter_script))
        false None ;;
      ret tt
    else
      subprocess_run
        (send_keys i (banner label ++ " && sudo tail -f " ++ path))
        false None ;;
      ret tt) ;;
  p <- Popen (Argv ["tmux"; "attach"; "-t"; "logmonitoring"]) ;;
  set_process p.

Definition start_multitail_combined : M unit :=
  w <- get ;;
  let cmd :=
    List.app ["sudo"; "multitail"]
      (flat_map (fun kv =>
         ["-l"; PyStr.title (PyStr.replace "_" " " (fst kv));
          "-l"; "tail -f " ++ snd kv])
         (firstn 6 (log_paths w))) in
  p <- Popen (Argv cmd) ;;
  set_process p.

Definition start_pi_monitor : M unit :=
  script_path <- mktemp ".sh" ;;
  p <- Popen (Argv ["bash"; script_path]) ;;
  set_process p.

Definition start_site_logs (site_prefix : string) : M unit :=
  let access_key := site_prefix ++ "_access" in
  let error_key := site_prefix ++ "_error" in
  w <- get ;;
  let access_log := dict_get (log_paths w) access_key in
  let error_log := dict_get (log_paths w) error_key in
  match access_log, error_log with
  | Some (String a ar), Some (String e er) =>
      has_multitail <- check_command "multitail" ;;
      if has_multitail then
        let site_name :=
          if String.eqb site_prefix "zemia" then "Main Site" else "Dev Site" in
        p <- Popen (Argv ["sudo"; "multitail";
                          "-l"; site_name ++ " Access Log"; String a ar;
                          "-l"; site_name ++ " Error Log"; String e er]) ;;
        set_process p
      else
        start_single_log (String a ar)
  | _, _ => modify (print (LogsNotFound site_prefix))
  end.

(** How a value read with [dict.get] prints inside an f-string. *)
Definition fmt_opt (o : option string) : string :=
  match o with Some s => s | None => "None" end.

Definition echo_empty : string := "echo " ++ dquote ++ dquote.

(** The statements of [start_tmux_apache_view] below its first one. *)
Definition apache_grid : M unit :=
  subprocess_run ["tmux"; "new-session"; "-d"; "-s"; "apachelogs"] false None ;;
  subprocess_run ["tmux"; "split-window"; "-h"] false None ;;
  subprocess_run ["tmux"; "select-pane"; "-t"; "0"] false None ;;
  subprocess_run ["tmux"; "split-window"; "-v"] false None ;;
  subprocess_run ["tmux"; "select-pane"; "-t"; "2"] false None ;;
  subprocess_run ["tmux"; "split-window"; "-v"] false None ;;
  w <- get ;;
  let logs_config :=
    [ (0, "MAIN SITE ACCESS (zemia.uk)", dict_get (log_paths w) "zemia_access");
      (1, "MAIN SITE ERRORS (zemia.uk)", dict_get (log_paths w) "zemia_error");
      (2, "DEV SITE ACCESS (dev.zemia.uk)",
          dict_get (log_paths w) "dev_zemia_access");
      (3, "DEV SITE ERRORS (dev.zemia.uk)",
          dict_get (log_paths w) "dev_zemia_error") ] in
  for_each logs_config (fun cfg =>
    let pane := fst (fst cfg) in
    let title := snd (fst cfg) in
    let log_path := snd cfg in
    if PyStr.truthy log_path then
      if PyStr.contains "ACCESS" title then
        formatter_script <- create_formatter_script ;;
        subprocess_run
          (send_keys pane
             (banner (title ++ " (COMPACT)") ++ " && " ++ echo_empty ++
              " && sudo tail -f " ++ fmt_opt log_path ++ " | python3 " ++
              formatter_script))
          false None ;;
        ret tt
      else
        subprocess_run
          (send_keys pane
             (banner title ++ " && " ++ echo_empty ++
              " && sudo tail -f " ++ fmt_opt log_path))
          false None ;;
        ret tt
    else
      subprocess_run
        (send_keys pane
           (banner title ++ " && echo " ++ dquote ++ "Log file not found: " ++
            fmt_opt log_path ++ dquote))
        false None ;;
      ret tt) ;;
  p <- Popen (Argv ["tmux"; "attach"; "-t"; "apachelogs"]) ;;
  set_process p.

Definition start_tmux_apache_view : M unit :=
  subprocess_run (kill_session "apachelogs") true (Some DEVNULL) ;;
  apache_grid.

(** Calling the closure stored under ['command']. *)
Definition run_command (c : command) : M unit :=
  match c with
  | start_htop_cmd => start_htop
  | start_top_cmd => start_top
  | start_single_log_cmd path => start_single_log path
  | start_site_logs_cmd site_prefix => start_site_logs site_prefix
  | start_tmux_apache_view_cmd => start_tmux_apache_view
  | start_tmux_multiview_cmd => start_tmux_multiview
  | start_multitail_combined_cmd => start_multitail_combined
  | start_pi_monitor_cmd => start_pi_monitor
  end.

(** The dictionary [tools_available]. *)
Record Tools : Type := mkTools {
  tmux : bool; multitail : bool; htop : bool; top : bool
}.

Definition priority_logs : list string :=
  [ "zemia_access"; "zemia_error";
    "dev_zemia_access"; "dev_zemia_error";
    "syslog"; "auth";
    "apache_access"; "apache_error";
    "nginx_access"; "nginx_error" ].

Definition single_log_view (paths : dict) (log_name : string) : list View :=
  match dict_get paths log_name with
  | Some path =>
      [ mkView (PyStr.title (PyStr.replace "_" " " log_name) ++ " Log")
               (start_single_log_cmd path) ]
  | None => []
  end.

(** The body of [build_available_views] below the probe of the tools. *)
Definition build_views (tools_available : Tools) (paths : dict) : list View :=
  let has := dict_mem paths in
  ((if htop tools_available
    then [mkView "System Stats (htop)" start_htop_cmd]
    else if top tools_available
    then [mkView "System Stats (top)" start_top_cmd]
    else []) ++
   flat_map (single_log_view paths) priority_logs ++
   (if has "zemia_access" && has "zemia_error"
    then [mkView "Main Site (zemia.uk) - All Logs" (start_site_logs_cmd "zemia")]
    else []) ++
   (if has "dev_zemia_access" && has "dev_zemia_error"
    then [mkView "Dev Site (dev.zemia.uk) - All Logs"
                 (start_site_logs_cmd "dev_zemia")]
    else []) ++
   (if tmux tools_available && Nat.leb 2 (List.length paths)
    then
      (if has "zemia_access" && has "zemia_error" &&
          has "dev_zemia_access" && has "dev_zemia_error"
       then [mkView "TMUX 4-Panel: Main + Dev Sites" start_tmux_apache_view_cmd]
       else []) ++
      [mkView "TMUX Multi-Panel View (All Logs)" start_tmux_multiview_cmd]
    else []) ++
   (if multitail tools_available && Nat.leb 2 (List.length paths)
    then [mkView "Multitail Combined View" start_multitail_combined_cmd]
    else []) ++
   [mkView "Pi System Monitor" start_pi_monitor_cmd])%list.

Definition build_available_views : M (list View) :=
  has_tmux <- check_command "tmux" ;;
  has_multitail <- check_command "multitail" ;;
  has_htop <- check_command "htop" ;;
  has_top <- check_command "top" ;;
  w <- get ;;
  ret (build_views (mkTools has_tmux has_multitail has_htop has_top)
                   (log_paths w)).

(** The constructor [__init__]. *)
Definition init : M unit :=
  modify (set_current_view 0) ;;
  modify (set_current_process None) ;;
  modify (set_temp_scripts []) ;;
  modify (set_log_paths detect_available_logs) ;;
  vs <- build_available_views ;;
  modify (set_views vs) ;;
  match vs with
  | [] => raise (SystemExit 1%Z)
  | _ :: _ => ret tt
  end.

Definition advance_cursor : M unit :=
  modify (fun w =>
    set_current_view ((current_view w + 1) mod List.length (views w)) w).

Definition switch_view : M unit :=
  kill_current_process ;;
  time_sleep (1 # 2) ;;
  w <- get ;;
  match nth_error (views w) (current_view w) with
  | None => raise IndexError
  | Some view =>
      modify (print (SwitchingTo (current_view w) (name view))) ;;
      try_except
        (run_command (view_command view) ;;
         advance_cursor ;;
         w' <- get ;;
         match nth_error (views w') (current_view w') with
         | None => raise IndexError
         | Some next => modify (print (NextTouch (name next)))
         end)
        is_Exception
        (fun e => modify (print (ErrorStartingView e)) ;; advance_cursor)
  end.

Definition cleanup : M unit :=
  modify (print CleaningUp) ;;
  kill_current_process ;;
  w <- get ;;
  for_each (temp_scripts w) (fun script_path =>
    try_except (os_unlink script_path) bare_except (fun _ => ret tt)) ;;
  modify (set_temp_scripts []) ;;
  subprocess_run (kill_session "logmonitoring") true (Some DEVNULL) ;;
  subprocess_run (kill_session "apachelogs") true (Some DEVNULL) ;;
  modify (print Goodbye).

(** One event read from the touch device, with the value [time.time()]
    returns when the loop reaches it. *)
Record InputEvent : Type := mkEvent {
  ev_type : Z; ev_code : Z; ev_value : Z; ev_time : Q
}.

Definition debounce_time : Q := 1.

(** [x > y] on time stamps *)
Definition Qgtb (x y : Q) : bool := negb (Qle_bool x y).

(** The [for event in self.touchscreen.read_loop()] loop; the end of the
    list is the arrival of [KeyboardInterrupt]. *)
Fixpoint touch_loop (events : list InputEvent) (last_touch_time : Q) : M unit :=
  match events with
  | [] => modify (print Exiting)
  | event :: rest =>
      if Z.eqb (ev_type event) 1 && Z.eqb (ev_code event) 330 then
        if Z.eqb (ev_value event) 1 then
          let current_time := ev_time event in
          if Qgtb (current_time - last_touch_time)%Q debounce_time then
            modify (print TouchDetected) ;;
            switch_view ;;
            touch_loop rest current_time
          else touch_loop rest last_touch_time
        else touch_loop rest last_touch_time
      else touch_loop rest last_touch_time
  end.

Inductive loop_ctl : Type := Continue | Break | Wait.

(** One round of the [while True] loop of the keyboard mode: [key] is what
    [select] and [sys.stdin.read(1)] deliver, [None] on a time-out.  When
    anything raises, the bare [except] sleeps until Ctrl+C arrives and
    switches no more. *)
Definition keyboard_round (key : option ascii) : M loop_ctl :=
  try_except
    (if stdin_is_tty h then
       match key with
       | Some k =>
           if Ascii.eqb k " " then
             modify (print KeySwitching) ;;
             switch_view ;;
             time_sleep (1 # 10) ;;
             ret Continue
           else if Ascii.eqb (PyStr.to_lower k) "q" then ret Break
           else time_sleep (1 # 10) ;; ret Continue
       | None => time_sleep (1 # 10) ;; ret Continue
       end
     else raise TermiosError)
    bare_except
    (fun _ => ret Wait).

Fixpoint keyboard_loop (keys : list (option ascii)) : M unit :=
  match keys with
  | [] => modify (print Exiting)
  | key :: rest =>
      ctl <- keyboard_round key ;;
      match ctl with
      | Continue => keyboard_loop rest
      | Break => ret tt
      | Wait => modify (print Exiting)
      end
  end.

Definition listen_for_touches (events : list InputEvent)
           (keys : list (option ascii)) : M unit :=
  if touchscreen_found h then
    switch_view ;;
    try_finally (touch_loop events 0%Q) cleanup
  else
    switch_view ;;
    try_finally (keyboard_loop keys) cleanup.

Definition main (events : list InputEvent) (keys : list (option ascii))
  : M unit :=
  init ;; listen_for_touches events keys.

End Methods.

(** The world before the constructor runs. *)
Definition boot : World :=
  mkWorld 0 None [] [] [] [] [] [] 0 0 [] [].

(* ------------------------------------------------------------------ *)
(** * Vocabulary *)

(* ------------------------------------------------------------------ *)
(** ** Observations on a world *)

(** The indices of the views a world has switched to, oldest first. *)
Fixpoint visited (c : list report) : list nat :=
  match c with
  | [] => []
  | SwitchingTo i _ :: r => i :: visited r
  | _ :: r => visited r
  end.

(** How many view transitions have started. *)
Definition started (w : World) : nat := List.length (visited (console w)).

(** The children [Popen] has started, oldest first. *)
Fixpoint spawned (t : list event) : list pid :=
  match t with
  | [] => []
  | Spawn p _ :: r => p :: spawned r
  | _ :: r => spawned r
  end.

Definition cursor_ok (w : World) : Prop :=
  current_view w < List.length (views w).

(** The part of a world the [start_*] methods never write. *)
Definition registry (w : World) :=
  (views w, current_view w, log_paths w, visited (console w)).

(** What an event does, in a word: the tmux subcommand for a tmux
    command line, the program for any other. *)
Definition verb_of (argv : list string) : string :=
  match argv with
  | prog :: sub :: _ => if String.eqb prog "tmux" then sub else prog
  | prog :: _ => prog
  | [] => ""
  end.

Definition event_verb (e : event) : string :=
  match e with
  | Run argv => verb_of argv
  | Spawn _ (Argv argv) => verb_of argv
  | Spawn _ (Shell _) => "sh"
  | Terminate _ => "SIGTERM"
  | Poll _ => "poll"
  | Kill _ => "SIGKILL"
  | Sleep _ => "sleep"
  | MkTemp _ => "mktemp"
  | Unlink _ => "unlink"
  end.

(* ------------------------------------------------------------------ *)
(** ** What a method leaves alone *)

(** [m] leaves [proj] of the world unchanged and raises nothing outside
    the class [Exception]. *)
Definition keeps {T A : Type} (proj : World -> T) (m : M A) : Prop :=
  forall w, proj (snd (m w)) = proj w /\
            forall e, fst (m w) = Raise e -> is_Exception e = true.

(** A line that does not announce a view switch. *)
Definition quiet (r : report) : bool :=
  match r with SwitchingTo _ _ => false | _ => true end.

(** The list of tracked scripts and the files on disk. *)
Definition tracked (w : World) := (temp_scripts w, files w).

(** The process table and the handle. *)
Definition processes (w : World) := (running w, current_process w).

(* ------------------------------------------------------------------ *)
(** ** Stages of a view switch *)

(** The body of the [try] block of [kill_current_process]. *)
Definition kill_attempt (h : Host) (p : pid) : M unit :=
  subprocess_run h (kill_session "logmonitoring") true None ;;
  subprocess_run h (kill_session "apachelogs") true None ;;
  terminate h p ;;
  time_sleep (1 # 2) ;;
  alive <- poll_is_None p ;;
  when alive (kill p).

(** The world in which [switch_view] calls the command of [view]: the old
    process is torn down, the pause is over, the banner is printed. *)
Definition entering (h : Host) (w : World) (view : View) : World :=
  print (SwitchingTo (current_view w) (name view))
    (emit (Sleep (1 # 2)) (snd (kill_current_process h w))).

(** The cursor one step further, modulo the number of views. *)
Definition advance (w : World) : World :=
  set_current_view ((current_view w + 1) mod List.length (views w)) w.

(** [k] admitted advance signals in a row. *)
Fixpoint advances (h : Host) (k : nat) : M unit :=
  match k with
  | 0 => ret tt
  | S k' => switch_view h ;; advances h k'
  end.

(** The child [p] is in the process table. *)
Definition alive (p : pid) (w : World) : bool := existsb (Nat.eqb p) (running w).

(* ------------------------------------------------------------------ *)
(** ** One live child *)

(** The handle names the only live child, if there is one. *)
Definition exclusive (w : World) : Prop :=
  running w = match current_process w with Some p => [p] | None => [] end.

(** From a world without a live child, [m] ends with the handle naming
    the only live child, or with none. *)
Definition one_spawn {A} (m : M A) : Prop :=
  forall w, running w = [] -> current_process w = None ->
            exclusive (snd (m w)).

(** The state the loops are in between two signals. *)
Definition settled (w : World) : Prop := cursor_ok w /\ exclusive w.

(* ------------------------------------------------------------------ *)
(** ** The registry and the input signals *)

(** No tool was found. *)
Definition no_tools : Tools := mkTools false false false false.

(** The view [build_available_views] always appends. *)
Definition pi_view : View := mkView "Pi System Monitor" start_pi_monitor_cmd.

(** The combined view of the main site. *)
Definition main_site_view : View :=
  mkView "Main Site (zemia.uk) - All Logs" (start_site_logs_cmd "zemia").

(** The catalog with the two logs of the main site and nothing else. *)
Definition zemia_catalog (access_path error_path : string) : dict :=
  [("zemia_access", access_path); ("zemia_error", error_path)].

(** A press on the screen: [EV_KEY], [BTN_TOUCH], value 1. *)
Definition is_touch_down (ev : InputEvent) : bool :=
  Z.eqb (ev_type ev) 1 && Z.eqb (ev_code ev) 330 && Z.eqb (ev_value ev) 1.

(** The event of a press read at time [t]. *)
Definition touch_down (t : Q) : InputEvent := mkEvent 1 330 1 t.

(** The debounce gate as the specification words it: a signal is admitted
    iff it comes more than the window after the last admitted one, and
    only an admitted signal becomes the last admitted one.  The result
    lists the time stamps of the admitted signals. *)
Fixpoint gate_admits (events : list InputEvent) (last_admitted : Q) : list Q :=
  match events with
  | [] => []
  | ev :: rest =>
      if is_touch_down ev && Qgtb (ev_time ev - last_admitted)%Q debounce_time
      then ev_time ev :: gate_admits rest (ev_time ev)
      else gate_admits rest last_admitted
  end.

(** The keys that start a transition in keyboard mode: every space up to
    the first [q]. *)
Fixpoint key_advances (keys : list (option ascii)) : nat :=
  match keys with
  | [] => 0
  | Some k :: rest =>
      if Ascii.eqb k " " then S (key_advances rest)
      else if Ascii.eqb (PyStr.to_lower k) "q" then 0
      else key_advances rest
  | None :: rest => key_advances rest
  end.

(* ------------------------------------------------------------------ *)
(** ** Temporary files *)

(** The loop of [cleanup] over the tracked scripts. *)
Definition release (l : list string) : M unit :=
  for_each l (fun script_path =>
    try_except (os_unlink script_path) bare_except (fun _ => ret tt)).

(** The file table after every path of [l] has been unlinked. *)
Definition unlink_all (l : list string) (fs : list string) : list string :=
  fold_left (fun acc path => remove_str path acc) l fs.

(** The name the next temporary file gets. *)
Definition tmp_path (w : World) (suffix : string) : string :=
  "/tmp/tmp" ++ PyStr.str (next_tmp w) ++ suffix.

(* ------------------------------------------------------------------ *)
(** ** Concrete hosts *)

Module Hosts.

(** A Pi with a touch screen and every program but [tmux]; no log file can
    be read. *)
Definition pi_without_tmux : Host :=
  mkHost (fun prog => negb (String.eqb prog "tmux"))
         (fun _ => false) (fun _ => true) (fun _ => true) true true.

(** The main site only: its access and error logs, every program. *)
Definition zemia_site : Host :=
  mkHost (fun _ => true)
         (fun path =>
            String.eqb path "/var/log/apache2/zemia-access.log" ||
            String.eqb path "/var/log/apache2/zemia-error.log")
         (fun _ => true) (fun _ => true) true true.

(** Both sites, every program, [tmux] included. *)
Definition both_sites : Host :=
  mkHost (fun _ => true) (fun path => PyStr.contains "zemia" path)
         (fun _ => true) (fun _ => true) true true.

(** The system logs only, on a machine without [sudo]. *)
Definition without_sudo : Host :=
  mkHost (fun prog => negb (String.eqb prog "sudo"))
         (fun path =>
            String.eqb path "/var/log/syslog" ||
            String.eqb path "/var/log/auth.log")
         (fun _ => true) (fun _ => true) true true.

End Hosts.

(** The first view on a host with the system logs. *)
Definition syslog_view : View :=
  mkView "Syslog Log" (start_single_log_cmd "/var/log/syslog").

(** The world the constructor builds on the host with the main site. *)
Definition zemia_world : World := snd (init Hosts.zemia_site boot).

(** The world the constructor builds on the host without [sudo]. *)
Definition syslog_world : World := snd (init Hosts.without_sudo boot).

(** The world that view leaves when it fails to start there. *)
Definition syslog_failed : World :=
  snd (run_command Hosts.without_sudo (view_command syslog_view)
         (entering Hosts.without_sudo syslog_world syslog_view)).

(** The world after the whole program has run on the host with the main
    site: the first view at start-up, three presses five seconds apart,
    then Ctrl+C. *)
Definition zemia_session : World :=
  snd (main Hosts.zemia_site
         [touch_down 5; touch_down 10; touch_down 15] [] boot).

(** The world the constructor builds on the host with both sites. *)
Definition both_sites_world : World := snd (init Hosts.both_sites boot).

(** The world after the constructor and the first view on the Pi without
    [tmux]: the monitor runs as child 0. *)
Definition pi_first_view : World :=
  snd ((init Hosts.pi_without_tmux ;; switch_view Hosts.pi_without_tmux) boot).

(* ------------------------------------------------------------------ *)
(** ** Further vocabulary *)

(** The commands that need none of the optional tools. *)
Definition tool_free (c : command) : bool :=
  match c with
  | start_single_log_cmd _ | start_site_logs_cmd _ | start_pi_monitor_cmd => true
  | _ => false
  end.

(** The [subprocess.run] calls that ran a program. *)
Definition is_Run (e : event) : bool :=
  match e with Run _ => true | _ => false end.

Definition runs (w : World) : list event := filter is_Run (trace w).

(** The session table and the programs run to completion. *)
Definition multiplexer (w : World) := (sessions w, runs w).

(** [l] is [m] with some elements left out, the order kept. *)
Inductive subseq {A : Type} : list A -> list A -> Prop :=
| subseq_nil : subseq [] []
| subseq_skip (l m : list A) (x : A) : subseq l m -> subseq l (x :: m)
| subseq_take (l m : list A) (x : A) : subseq l m -> subseq (x :: l) (x :: m).

(** Every name [build_available_views] can give a view, in the order the
    views are appended. *)
Definition all_view_names : list string :=
  [ "System Stats (htop)"; "System Stats (top)";
    "Zemia Access Log"; "Zemia Error Log";
    "Dev Zemia Access Log"; "Dev Zemia Error Log";
    "Syslog Log"; "Auth Log";
    "Apache Access Log"; "Apache Error Log";
    "Nginx Access Log"; "Nginx Error Log";
    "Main Site (zemia.uk) - All Logs";
    "Dev Site (dev.zemia.uk) - All Logs";
    "TMUX 4-Panel: Main + Dev Sites";
    "TMUX Multi-Panel View (All Logs)";
    "Multitail Combined View";
    "Pi System Monitor" ].

(** The world on the host with the main site once the first view runs. *)
Definition zemia_first_view : World :=
  snd (switch_view Hosts.zemia_site zemia_world).

(** A machine with neither a touch screen nor a terminal on stdin. *)
Definition headless_host : Host :=
  mkHost (fun _ => true) (fun _ => false) (fun _ => true) (fun _ => true)
         false false.

(** The farewell lines on the console. *)
Definition is_Goodbye (r : report) : bool :=
  match r with Goodbye => true | _ => false end.

Definition farewells (w : World) : list report :=
  filter is_Goodbye (console w).

(* ------------------------------------------------------------------ *)
(** * More of the model *)

(* ------------------------------------------------------------------ *)
(** ** The legacy methods of [TouchLogViewer]

    No view refers to them.  Their banner lines and their "not found"
    lines are left out, like the banner lines of the other [start_*]
    methods. *)

Section LegacyMethods.

Variable h : Host.

(** The loop of [start_dev_access_only] over [self.log_paths.items()]. *)
Fixpoint start_first_dev (items : dict) : M unit :=
  match items with
  | [] => ret tt
  | (log_name, path) :: rest =>
      if PyStr.contains "dev" log_name ||
         PyStr.contains "development" log_name
      then start_single_log h path
      else start_first_dev rest
  end.

Definition start_dev_access_only : M unit :=
  w <- get ;; start_first_dev (log_paths w).

End LegacyMethods.

(* ------------------------------------------------------------------ *)
(** ** [find_touchscreen]

    An input device as [evdev] presents it: its path, its name and the
    event types its capabilities list.  Opening a device is taken to
    succeed. *)

Record InputDevice : Type := mkDevice {
  dev_path : string;
  dev_name : string;
  capabilities : list Z
}.

Definition touchscreen_keywords : list string :=
  ["ft5406"; "touch"; "screen"; "finger"].

(** [3 in caps]: the device reports absolute positions ([EV_ABS]). *)
Definition has_EV_ABS (device : InputDevice) : bool :=
  existsb (Z.eqb 3) (capabilities device).

(** [any(keyword in device_name for keyword in touchscreen_keywords)] *)
Definition named_like_touchscreen (device : InputDevice) : bool :=
  existsb (fun keyword => PyStr.contains keyword (PyStr.lower (dev_name device)))
          touchscreen_keywords.

Definition find_touchscreen (EVDEV_AVAILABLE : bool)
           (devices : list InputDevice) : option InputDevice :=
  if negb EVDEV_AVAILABLE then None
  else
    match find (fun device => named_like_touchscreen device &&
                              has_EV_ABS device) devices with
    | Some device => Some device
    | None => find has_EV_ABS devices
    end.

(** Whether [start_single_log] shows a log through the formatter. *)
Definition uses_formatter (log_path : string) : bool :=
  PyStr.contains "access" (PyStr.lower log_path) &&
  (PyStr.contains "apache" (PyStr.lower log_path) ||
   PyStr.contains "zemia" (PyStr.lower log_path)).

(** Two input devices of a Pi: a mouse, then the official touch screen. *)
Definition usb_mouse : InputDevice :=
  mkDevice "/dev/input/event0" "Logitech USB Mouse" [0%Z; 1%Z; 2%Z; 4%Z].

Definition wacom_tablet : InputDevice :=
  mkDevice "/dev/input/event1" "Wacom Touch Tablet" [0%Z; 1%Z; 3%Z].

Definition pi_touchscreen : InputDevice :=
  mkDevice "/dev/input/event2" "FT5406 memory based driver" [0%Z; 1%Z; 3%Z].

(* ------------------------------------------------------------------ *)
(** ** [format_compact_apache_log] and the formatter script

    The two regular expressions are matched the way Python's [re] matches
    them: a greedy quantifier takes as many characters as it can and gives
    them back one at a time until the rest of the pattern matches.  The
    pattern of a log line is a sequence of literal characters and of
    quantified character classes, some of them captured.

    [int] follows CPython: surrounding white space, one sign, decimal
    digits with single underscores between them, and a [ValueError] when
    there are more digits than the interpreter's limit allows
    ([max_str_digits]; 0 switches the limit off, 4300 is the default of
    the releases that have it). *)

Module Colors.
Definition ESC : string := String (ascii_of_nat 27) EmptyString.
Definition RESET : string := ESC ++ "[0m".
Definition SUCCESS : string := ESC ++ "[92m".
Definition REDIRECT : string := ESC ++ "[93m".
Definition CLIENT_ERR : string := ESC ++ "[91m".
Definition SERVER_ERR : string := ESC ++ "[95m".
Definition IP : string := ESC ++ "[96m".
Definition TIME : string := ESC ++ "[94m".
Definition METHOD : string := ESC ++ "[97m".
Definition PATH : string := ESC ++ "[90m".
Definition UA : string := ESC ++ "[33m".
Definition SIZE : string := ESC ++ "[35m".
End Colors.

Module Re.

(** [str.isspace] on an ASCII character; it is also what [\s] matches. *)
Definition isspace (c : ascii) : bool :=
  let n := nat_of_ascii c in
  (Nat.leb 9 n && Nat.leb n 13) || (Nat.leb 28 n && Nat.leb n 32).

(** [\S] *)
Definition nonspace (c : ascii) : bool := negb (isspace c).

(** [\d] on an ASCII character *)
Definition isdigit (c : ascii) : bool :=
  let n := nat_of_ascii c in Nat.leb 48 n && Nat.leb n 57.

(** [[^c]] *)
Definition other_than (c : ascii) (x : ascii) : bool := negb (Ascii.eqb x c).

(** One element of a pattern: a literal character, or a character class
    under a greedy quantifier with a least number of repetitions
    ([+] is 1, [*] is 0), inside a capturing group or not. *)
Inductive item : Type :=
| Lit (c : ascii)
| Rep (cls : ascii -> bool) (least : nat) (capture : bool).

(** The greedy quantifier: take one more character when the class allows
    it and the rest then matches; otherwise stop here, if enough were
    taken, and hand over to the rest of the pattern. *)
Fixpoint greedy (cls : ascii -> bool) (least : nat)
         (rest : string -> string -> option (list string))
         (s taken : string) (count : nat) : option (list string) :=
  let stop := if Nat.leb least count then rest s taken else None in
  match s with
  | String x s' =>
      if cls x then
        match greedy cls least rest s' (taken ++ String x EmptyString)
                     (S count) with
        | Some groups => Some groups
        | None => stop
        end
      else stop
  | EmptyString => stop
  end.

(** [re.match]: the pattern is matched at the start of [s]; the result is
    the list of the captured groups. *)
Fixpoint match_items (items : list item) (s : string) (groups : list string)
  : option (list string) :=
  match items with
  | [] => Some groups
  | Lit c :: rest =>
      match s with
      | String x s' =>
          if Ascii.eqb x c then match_items rest s' groups else None
      | EmptyString => None
      end
  | Rep cls least capture :: rest =>
      greedy cls least
        (fun s' taken =>
           match_items rest s'
             (if capture then List.app groups [taken] else groups))
        s EmptyString 0
  end.

Definition lits (s : string) : list item := map Lit (list_ascii_of_string s).

End Re.

Section Formatter.

Import Re.

(** [s.lstrip()], [s.rstrip()] and [s.strip()] *)
Fixpoint lstrip (s : string) : string :=
  match s with
  | String c r => if isspace c then lstrip r else s
  | EmptyString => EmptyString
  end.

Fixpoint rstrip (s : string) : string :=
  match s with
  | String c r =>
      match rstrip r with
      | EmptyString => if isspace c then EmptyString
                       else String c EmptyString
      | r' => String c r'
      end
  | EmptyString => EmptyString
  end.

Definition strip (s : string) : string := rstrip (lstrip s).

(** [s.ljust(width)], the padding of [{s:<width}] *)
Definition ljust (width : nat) (s : string) : string :=
  s ++ string_of_list_ascii (repeat " "%char (width - String.length s)).

(** [s.replace(old, new)] for a non-empty [old]: [skip] counts the
    characters of a match that are still to be passed over. *)
Fixpoint replace_from (old new : string) (skip : nat) (s : string) : string :=
  match s with
  | EmptyString => EmptyString
  | String c r =>
      match skip with
      | S k => replace_from old new k r
      | 0 =>
          if String.prefix old s
          then new ++ replace_from old new (String.length old - 1) r
          else String c (replace_from old new 0 r)
      end
  end.

Definition str_replace (old new s : string) : string :=
  replace_from old new 0 s.

(** [str(n)] for an integer *)
Definition str_Z (n : Z) : string :=
  if Z.ltb n 0 then "-" ++ PyStr.str (Z.to_nat (Z.opp n))
  else PyStr.str (Z.to_nat n).

(** The digits of [int(s)], read left to right: the value so far, whether
    the character before was an underscore (or the start), and the number
    of digits. *)
Fixpoint int_digits (s : string) (value : Z) (after_underscore : bool)
         (count : nat) : option (Z * nat) :=
  match s with
  | EmptyString => if after_underscore then None else Some (value, count)
  | String c r =>
      if isdigit c then
        int_digits r (10 * value + Z.of_nat (nat_of_ascii c - 48))%Z false
                   (S count)
      else if Ascii.eqb c "_" && negb after_underscore then
        int_digits r value true count
      else None
  end.

(** [int(s)]; [None] stands for [ValueError]. *)
Definition py_int (max_str_digits : nat) (s : string) : option Z :=
  let body := strip s in
  let signed :=
    match body with
    | String c r =>
        if Ascii.eqb c "-" then (true, r)
        else if Ascii.eqb c "+" then (false, r)
        else (false, body)
    | EmptyString => (false, body)
    end in
  match int_digits (snd signed) 0%Z true 0 with
  | Some (value, count) =>
      if Nat.ltb 0 max_str_digits && Nat.ltb max_str_digits count then None
      else Some (if fst signed then Z.opp value else value)
  | None => None
  end.

(** [log_pattern], the Apache combined log format: the address, two
    fields passed over, the time stamp in square brackets, the request in
    double quotes (method, path, protocol), the status, the size, the
    referrer in double quotes (passed over) and the user agent in double
    quotes.  The groups are, in order: ip, timestamp, method, path,
    protocol, status, size, user_agent. *)
Definition log_pattern : list item :=
  (Rep nonspace 1 true :: lits " " ++
   Rep nonspace 1 false :: lits " " ++
   Rep nonspace 1 false :: lits " [" ++
   Rep (other_than "]") 1 true :: lits ("] " ++ dquote) ++
   Rep nonspace 1 true :: lits " " ++
   Rep (other_than (ascii_of_nat 34)) 0 true :: lits " " ++
   Rep (other_than (ascii_of_nat 34)) 0 true :: lits (dquote ++ " ") ++
   Rep isdigit 1 true :: lits " " ++
   Rep nonspace 1 true :: lits (" " ++ dquote) ++
   Rep (other_than (ascii_of_nat 34)) 0 false ::
     lits (dquote ++ " " ++ dquote) ++
   Rep (other_than (ascii_of_nat 34)) 0 true :: lits dquote)%list.

(** [(\d{2}):(\d{2}):(\d{2})] matched at the start of [s]: groups 1
    and 2. *)
Definition time_at (s : string) : option (string * string) :=
  match s with
  | String a (String b (String c1 (String c (String d
      (String c2 (String e (String f _))))))) =>
      if isdigit a && isdigit b && Ascii.eqb c1 ":" &&
         isdigit c && isdigit d && Ascii.eqb c2 ":" &&
         isdigit e && isdigit f
      then Some (String a (String b EmptyString),
                 String c (String d EmptyString))
      else None
  | _ => None
  end.

(** [re.search] of that pattern: the leftmost match. *)
Fixpoint search_time (s : string) : option (string * string) :=
  match time_at s with
  | Some groups => Some groups
  | None =>
      match s with
      | String _ r => search_time r
      | EmptyString => None
      end
  end.

Definition time_str_of (timestamp : string) : string :=
  match search_time timestamp with
  | Some (hours, minutes) => hours ++ ":" ++ minutes
  | None => "??:??"
  end.

(** The path, cut when it is longer than [limit]. *)
Definition cut_path (limit keep : nat) (path : string) : string :=
  if Nat.ltb limit (String.length path)
  then substring 0 keep path ++ "..."
  else path.

Definition ua_short_of (user_agent : string) : string :=
  let ua_short :=
    if Nat.ltb 30 (String.length user_agent)
    then substring 0 30 user_agent ++ "..."
    else user_agent in
  let ua_short := str_replace "Mozilla/5.0 " "" ua_short in
  str_replace "(compatible; " "" ua_short.

Definition status_color_of (status_int : Z) : string :=
  if Z.leb 200 status_int && Z.ltb status_int 300 then Colors.SUCCESS
  else if Z.leb 300 status_int && Z.ltb status_int 400 then Colors.REDIRECT
  else if Z.leb 400 status_int && Z.ltb status_int 500 then Colors.CLIENT_ERR
  else if Z.leb 500 status_int && Z.ltb status_int 600 then Colors.SERVER_ERR
  else Colors.RESET.

(** The size with its unit. *)
Definition size_label (size_int : Z) : string :=
  if Z.ltb size_int 1024 then str_Z size_int ++ "b"
  else if Z.ltb size_int (1024 * 1024) then str_Z (size_int / 1024) ++ "k"
  else str_Z (size_int / (1024 * 1024)) ++ "M".

(** The [try] block around the size: whatever [int] refuses is shown as
    it is. *)
Definition size_str_of (max_str_digits : nat) (size : string) : string :=
  if String.eqb size "-" then size_label 0
  else match py_int max_str_digits size with
       | Some size_int => size_label size_int
       | None => size
       end.

(** The formatter, with the two numbers in which the function of the
    viewer and the function of the script differ. *)
Definition format_line (path_limit path_keep : nat) (max_str_digits : nat)
           (line : string) : result string :=
  match match_items log_pattern (strip line) [] with
  | Some [ip; timestamp; method; path; protocol; status; size; user_agent] =>
      let time_str := time_str_of timestamp in
      let path := cut_path path_limit path_keep path in
      let ua_short := ua_short_of user_agent in
      match py_int max_str_digits status with
      | None => Raise ValueError
      | Some status_int =>
          let status_color := status_color_of status_int in
          let size_str := size_str_of max_str_digits size in
          Ok (Colors.TIME ++ time_str ++ Colors.RESET ++ " " ++
              Colors.IP ++ ljust 15 ip ++ Colors.RESET ++ " " ++
              Colors.METHOD ++ ljust 4 method ++ Colors.RESET ++ " " ++
              Colors.PATH ++ ljust 25 path ++ Colors.RESET ++ " " ++
              status_color ++ status ++ Colors.RESET ++ " " ++
              Colors.SIZE ++ ljust 5 size_str ++ Colors.RESET ++ " " ++
              Colors.UA ++ ua_short ++ Colors.RESET)
      end
  | _ => Ok line
  end.

(** The function of the viewer. *)
Definition format_compact_apache_log : nat -> string -> result string :=
  format_line 25 22.

(** The function the formatter script defines. *)
Definition format_compact_log : nat -> string -> result string :=
  format_line 50 47.

End Formatter.

(** The example of the docstring, with a short user agent. *)
Definition sample_line : string :=
  "167.94.145.97 - - [10/Aug/2025:22:16:22 +0100] " ++ dquote ++
  "GET /sitemap.xml HTTP/1.1" ++ dquote ++ " 301 429 " ++ dquote ++ "-" ++
  dquote ++ " " ++ dquote ++ "Mozilla/5.0 (compatible; CensysInspect/1.1)" ++
  dquote.

(** No colon among the characters of [s]. *)
Definition colon_free (s : string) : bool :=
  forallb (fun c => negb (Ascii.eqb c ":")) (list_ascii_of_string s).

(** The quantified classes of a pattern that sit in a capturing group. *)
Definition capturing (it : Re.item) : bool :=
  match it with Re.Rep _ _ true => true | _ => false end.

(** What a quantified class promises about the text it matched: every
    character is in the class, and there are at least [least] of them. *)
Definition group_ok (it : Re.item) (text : string) : Prop :=
  match it with
  | Re.Rep cls least _ =>
      forallb cls (list_ascii_of_string text) = true /\
      least <= String.length text
  | Re.Lit _ => True
  end.

(** The double quote. *)
Definition dq : ascii := ascii_of_nat 34.

(** Every event of the run is a press that comes more than the debounce
    window after the one before it, the first one after [last]. *)
Fixpoint spaced_presses (last : Q) (events : list InputEvent) : bool :=
  match events with
  | [] => true
  | ev :: rest =>
      is_touch_down ev && Qgtb (ev_time ev - last)%Q debounce_time &&
      spaced_presses (ev_time ev) rest
  end.

(* ------------------------------------------------------------------ *)
(** * Proofs *)

(* ------------------------------------------------------------------ *)
(** ** Observations are additive *)

Lemma visited_app (a b : list report) :
  visited (a ++ b) = (visited a ++ visited b)%list.
Proof.
  induction a as [|r a IH]; simpl; [reflexivity|].
  destruct r; simpl; rewrite IH; reflexivity.
Qed.

Lemma spawned_app (a b : list event) :
  spawned (a ++ b) = (spawned a ++ spawned b)%list.
Proof.
  induction a as [|e a IH]; simpl; [reflexivity|].
  destruct e; simpl; rewrite IH; reflexivity.
Qed.

(* ------------------------------------------------------------------ *)
(** ** Walking round a cycle of [n] positions *)

Lemma map_seq_shift (f : nat -> nat) (len : nat) : forall a b,
  (forall j, j < len -> f (a + j) = b + j) ->
  map f (seq a len) = seq b len.
Proof.
  induction len as [|len IH]; intros a b Hf; simpl; [reflexivity|].
  f_equal.
  - specialize (Hf 0). rewrite !Nat.add_0_r in Hf. apply Hf. lia.
  - apply IH. intros j Hj. specialize (Hf (S j)).
    replace (S a + j) with (a + S j) by lia.
    replace (S b + j) with (b + S j) by lia. apply Hf. lia.
Qed.

(** Starting at [c] and stepping [n] times modulo [n] meets every position
    exactly once. *)
Lemma rotation_Permutation (n c : nat) :
  c < n ->
  Permutation (map (fun i => (c + i) mod n) (seq 0 n)) (seq 0 n).
Proof.
  intros Hc.
  pose proof (seq_app (n - c) c 0) as Hleft. simpl in Hleft.
  replace (n - c + c) with n in Hleft by lia.
  pose proof (seq_app c (n - c) 0) as Hright. simpl in Hright.
  replace (c + (n - c)) with n in Hright by lia.
  rewrite Hleft at 1. rewrite Hright, map_app.
  rewrite (map_seq_shift _ (n - c) 0 c).
  2:{ intros j Hj. simpl. apply Nat.mod_small. lia. }
  rewrite (map_seq_shift _ c (n - c) 0).
  2:{ intros j Hj. simpl.
      replace (c + (n - c + j)) with (j + 1 * n) by lia.
      rewrite Nat.Div0.mod_add. apply Nat.mod_small. lia. }
  apply Permutation_app_comm.
Qed.

(* ------------------------------------------------------------------ *)
(** ** Frame reasoning: what a method leaves alone, and what it can raise *)

Section Keeps.

Context {T : Type} (proj : World -> T).

Lemma keeps_ret {A} (a : A) : keeps proj (ret a).
Proof. intro w; split; [reflexivity | discriminate]. Qed.

Lemma keeps_get : keeps proj get.
Proof. intro w; split; [reflexivity | discriminate]. Qed.

Lemma keeps_raise {A} (e : exn) : is_Exception e = true -> keeps proj (@raise A e).
Proof. intros He w; split; [reflexivity | simpl; congruence]. Qed.

Lemma keeps_modify (f : World -> World) :
  (forall w, proj (f w) = proj w) -> keeps proj (modify f).
Proof. intros Hf w; split; [apply Hf | discriminate]. Qed.

Lemma keeps_bind {A B} (m : M A) (k : A -> M B) :
  keeps proj m -> (forall a, keeps proj (k a)) -> keeps proj (bind m k).
Proof.
  intros Hm Hk w. unfold bind.
  destruct (Hm w) as [Hp He]. destruct (m w) as [[a|e] w1]; simpl in *.
  - destruct (Hk a w1) as [Hp' He']. split; [congruence | exact He'].
  - split; [exact Hp | ].
    intros e' H; inversion H; subst; apply He; reflexivity.
Qed.

Lemma keeps_try_except {A} (m : M A) (c : exn -> bool) (hd : exn -> M A) :
  keeps proj m -> (forall e, keeps proj (hd e)) -> keeps proj (try_except m c hd).
Proof.
  intros Hm Hh w. unfold try_except.
  destruct (Hm w) as [Hp He]. destruct (m w) as [[a|e] w1]; simpl in *.
  - split; [exact Hp | discriminate].
  - destruct (c e).
    + destruct (Hh e w1) as [Hp' He']. split; [congruence | exact He'].
    + split; [exact Hp | exact He].
Qed.

Lemma keeps_try_finally {A} (m : M A) (f : M unit) :
  keeps proj m -> keeps proj f -> keeps proj (try_finally m f).
Proof.
  intros Hm Hf w. unfold try_finally.
  destruct (Hm w) as [Hp He]. destruct (m w) as [r w1]; simpl in *.
  destruct (Hf w1) as [Hp' He']. destruct (f w1) as [[u|e] w2]; simpl in *.
  - split; [congruence | exact He].
  - split; [congruence | ].
    intros e' H; inversion H; subst; apply He'; reflexivity.
Qed.

Lemma keeps_when (b : bool) (m : M unit) : keeps proj m -> keeps proj (when b m).
Proof. destruct b; simpl; [auto | intros _; apply keeps_ret]. Qed.

Lemma keeps_for_each {A} (l : list A) (body : A -> M unit) :
  (forall x, keeps proj (body x)) -> keeps proj (for_each l body).
Proof.
  intros Hb. induction l as [|x l IH]; simpl.
  - apply keeps_ret.
  - apply keeps_bind; [apply Hb | intros _; exact IH].
Qed.

End Keeps.

(** Structural steps of a [keeps] proof. *)
Ltac keeps_step :=
  lazymatch goal with
  | |- keeps _ (bind _ _) => apply keeps_bind; [ | intros ? ]
  | |- keeps _ (ret _) => apply keeps_ret
  | |- keeps _ get => apply keeps_get
  | |- keeps _ (raise _) => apply keeps_raise; reflexivity
  | |- keeps _ (modify _) => apply keeps_modify; intros ?; reflexivity
  | |- keeps _ (try_except _ _ _) => apply keeps_try_except; [ | intros ? ]
  | |- keeps _ (try_finally _ _) => apply keeps_try_finally
  | |- keeps _ (when _ _) => apply keeps_when
  | |- keeps _ (for_each _ _) => apply keeps_for_each; intros ?
  | |- keeps _ (if ?b then _ else _) => destruct b
  | |- keeps _ (match ?x with _ => _ end) => destruct x
  | |- keeps _ (let _ := _ in _) => cbv zeta
  end.

Create HintDb keeps_db.

Ltac keeps_tac := repeat (first [ solve [auto with keeps_db] | keeps_step ]).

(* ------------------------------------------------------------------ *)
(** ** The [start_*] methods leave the registry alone *)

Section Registry.

Variable h : Host.

Lemma registry_print (r : report) :
  quiet r = true -> keeps registry (modify (print r)).
Proof.
  intros Hq. apply keeps_modify. intros w. unfold registry, print; simpl.
  rewrite visited_app. destruct r; try discriminate; simpl;
    rewrite app_nil_r; reflexivity.
Qed.

Lemma registry_run_program prog args : keeps registry (run_program h prog args).
Proof.
  intros w. unfold run_program.
  destruct (String.eqb prog "which"); [split; [reflexivity | discriminate]|].
  destruct (String.eqb prog "tmux"); split; try reflexivity; discriminate.
Qed.

Lemma registry_spawn c : keeps registry (spawn c).
Proof. intros w; split; [reflexivity | discriminate]. Qed.

Lemma registry_poll p : keeps registry (poll_is_None p).
Proof. intros w; split; [reflexivity | discriminate]. Qed.

Lemma registry_mktemp sfx : keeps registry (mktemp sfx).
Proof. intros w; split; [reflexivity | discriminate]. Qed.

Lemma registry_os_unlink path : keeps registry (os_unlink path).
Proof.
  intros w. unfold os_unlink. destruct (mem_str path (files w)); simpl.
  - split; [reflexivity | discriminate].
  - split; [reflexivity | intros e H; inversion H; reflexivity].
Qed.

Lemma registry_terminate p : keeps registry (terminate h p).
Proof.
  apply keeps_modify. intros w. destruct (exits_on_term h p); reflexivity.
Qed.

Hint Resolve registry_print registry_run_program registry_spawn registry_poll
  registry_mktemp registry_os_unlink registry_terminate : keeps_db.

Lemma registry_subprocess_run argv co se :
  keeps registry (subprocess_run h argv co se).
Proof. unfold subprocess_run. keeps_tac. Qed.

Lemma registry_Popen c : keeps registry (Popen h c).
Proof. unfold Popen. keeps_tac. Qed.

Lemma registry_kill p : keeps registry (kill p).
Proof. unfold kill. keeps_tac. Qed.

Lemma registry_time_sleep d : keeps registry (time_sleep d).
Proof. unfold time_sleep. keeps_tac. Qed.

Lemma registry_set_process p : keeps registry (set_process p).
Proof. unfold set_process. keeps_tac. Qed.

Hint Resolve registry_subprocess_run registry_Popen registry_kill
  registry_time_sleep registry_set_process : keeps_db.

Lemma registry_create_formatter_script :
  keeps registry create_formatter_script.
Proof. unfold create_formatter_script. keeps_tac. Qed.

Lemma registry_check_command c : keeps registry (check_command h c).
Proof. unfold check_command. keeps_tac. Qed.

Hint Resolve registry_create_formatter_script registry_check_command
  : keeps_db.

Lemma registry_kill_current_process :
  keeps registry (kill_current_process h).
Proof. unfold kill_current_process. keeps_tac. Qed.

Lemma registry_start_single_log path :
  keeps registry (start_single_log h path).
Proof. unfold start_single_log. keeps_tac. Qed.

Hint Resolve registry_kill_current_process registry_start_single_log
  : keeps_db.

Lemma registry_start_htop : keeps registry (start_htop h).
Proof. unfold start_htop. keeps_tac. Qed.

Lemma registry_start_top : keeps registry (start_top h).
Proof. unfold start_top. keeps_tac. Qed.

Lemma registry_start_tmux_multiview : keeps registry (start_tmux_multiview h).
Proof. unfold start_tmux_multiview. keeps_tac. Qed.

Lemma registry_start_multitail_combined :
  keeps registry (start_multitail_combined h).
Proof. unfold start_multitail_combined. keeps_tac. Qed.

Lemma registry_start_pi_monitor : keeps registry (start_pi_monitor h).
Proof. unfold start_pi_monitor. keeps_tac. Qed.

Lemma registry_start_site_logs p : keeps registry (start_site_logs h p).
Proof. unfold start_site_logs. keeps_tac. Qed.

Lemma registry_start_tmux_apache_view :
  keeps registry (start_tmux_apache_view h).
Proof. unfold start_tmux_apache_view, apache_grid. keeps_tac. Qed.

Lemma registry_run_command c : keeps registry (run_command h c).
Proof.
  destruct c; simpl;
    auto using registry_start_htop, registry_start_top,
      registry_start_single_log, registry_start_site_logs,
      registry_start_tmux_apache_view, registry_start_tmux_multiview,
      registry_start_multitail_combined, registry_start_pi_monitor.
Qed.

End Registry.

#[export] Hint Resolve registry_print registry_run_program registry_spawn
  registry_poll registry_mktemp registry_os_unlink registry_terminate
  registry_subprocess_run registry_Popen registry_kill registry_time_sleep
  registry_set_process registry_create_formatter_script
  registry_check_command registry_kill_current_process
  registry_start_single_log registry_run_command : keeps_db.

(* ------------------------------------------------------------------ *)
(** ** [kill_current_process] and [switch_view] *)

Section Switch.

Variable h : Host.

Lemma registry_eq (w w' : World) :
  registry w' = registry w ->
  views w' = views w /\ current_view w' = current_view w /\
  log_paths w' = log_paths w /\ visited (console w') = visited (console w).
Proof. unfold registry. intros H. inversion H. auto. Qed.

(** A handler that cannot fail makes [try: .. except Exception: ..] total,
    when the body raises nothing outside [Exception]. *)
Lemma try_except_Exception_total {A} (m : M A) (hd : exn -> M A) (w : World) :
  keeps registry m ->
  (forall e w1, exists a, fst (hd e w1) = Ok a) ->
  exists a, fst (try_except m is_Exception hd w) = Ok a.
Proof.
  intros Hm Hh. unfold try_except. destruct (Hm w) as [_ He].
  destruct (m w) as [[a|e] w1]; simpl in *.
  - exists a; reflexivity.
  - rewrite (He e eq_refl). apply Hh.
Qed.

Lemma kill_current_process_unfold (w : World) :
  kill_current_process h w =
  match current_process w with
  | None => (Ok tt, w)
  | Some p =>
      try_finally
        (try_except (kill_attempt h p) is_Exception
           (fun e => modify (print (ErrorKillingProcess e))))
        (modify (set_current_process None)) w
  end.
Proof.
  unfold kill_current_process, bind at 1. simpl.
  destruct (current_process w); reflexivity.
Qed.

Lemma registry_kill_attempt p : keeps registry (kill_attempt h p).
Proof. unfold kill_attempt. keeps_tac. Qed.

(** [kill_current_process] never raises, and always clears the handle. *)
Lemma kill_current_process_clears (w : World) :
  fst (kill_current_process h w) = Ok tt /\
  current_process (snd (kill_current_process h w)) = None.
Proof.
  rewrite kill_current_process_unfold.
  destruct (current_process w) as [p|] eqn:Hp; [|simpl; auto].
  unfold try_finally.
  match goal with |- context [try_except ?m ?c ?hd w] =>
    destruct (try_except_Exception_total m hd w) as [a Ha];
    [ apply registry_kill_attempt
    | intros e w1; exists tt; reflexivity
    | destruct (try_except m c hd w) as [r w1] ]
  end.
  simpl in *. subst r. destruct a. auto.
Qed.

Lemma entering_registry (w : World) (view : View) :
  views (entering h w view) = views w /\
  current_view (entering h w view) = current_view w /\
  log_paths (entering h w view) = log_paths w /\
  visited (console (entering h w view)) =
    (visited (console w) ++ [current_view w])%list.
Proof.
  destruct (registry_kill_current_process h w) as [Hr _].
  apply registry_eq in Hr. destruct Hr as (Hv & Hc & Hl & Hs).
  unfold entering; simpl. rewrite visited_app; simpl.
  rewrite Hs. auto.
Qed.

Lemma switch_view_unfold (w : World) (view : View) :
  nth_error (views w) (current_view w) = Some view ->
  switch_view h w =
  try_except
    (run_command h (view_command view) ;;
     advance_cursor ;;
     w' <- get ;;
     match nth_error (views w') (current_view w') with
     | None => raise IndexError
     | Some next => modify (print (NextTouch (name next)))
     end)
    is_Exception
    (fun e => modify (print (ErrorStartingView e)) ;; advance_cursor)
    (entering h w view).
Proof.
  intros Hv. unfold switch_view, entering.
  destruct (registry_kill_current_process h w) as [Hr _].
  apply registry_eq in Hr. destruct Hr as (Hvs & Hc & _ & _).
  destruct (kill_current_process_clears w) as [Hok _].
  unfold bind at 1.
  destruct (kill_current_process h w) as [r w1]. simpl in *. subst r.
  unfold bind at 1. simpl. unfold bind at 1. simpl.
  rewrite Hvs, Hc, Hv. unfold bind at 1. simpl. reflexivity.
Qed.

Lemma run_command_registry (w : World) (view : View) r w2 :
  run_command h (view_command view) (entering h w view) = (r, w2) ->
  views w2 = views w /\ current_view w2 = current_view w /\
  log_paths w2 = log_paths w /\
  visited (console w2) = (visited (console w) ++ [current_view w])%list /\
  forall e, r = Raise e -> is_Exception e = true.
Proof.
  intros Hrun.
  destruct (registry_run_command h (view_command view) (entering h w view))
    as [Hr He].
  rewrite Hrun in Hr, He. simpl in *.
  apply registry_eq in Hr. destruct Hr as (Hv & Hc & Hl & Hs).
  destruct (entering_registry w view) as (Hv' & Hc' & Hl' & Hs').
  repeat split; try congruence. exact He.
Qed.

Lemma mod_cursor_lt (w : World) :
  views w <> [] -> (current_view w + 1) mod List.length (views w)
                   < List.length (views w).
Proof.
  intros Hne. apply Nat.mod_upper_bound.
  destruct (views w); [congruence | simpl; lia].
Qed.

(** The failure path: the report is printed and the cursor moves on by
    one; nothing else happens after the command has raised. *)
Lemma switch_view_failed (w : World) (view : View) e w2 :
  nth_error (views w) (current_view w) = Some view ->
  run_command h (view_command view) (entering h w view) = (Raise e, w2) ->
  switch_view h w = (Ok tt, advance (print (ErrorStartingView e) w2)).
Proof.
  intros Hv Hrun. rewrite (switch_view_unfold w view Hv).
  destruct (run_command_registry w view _ _ Hrun) as (_ & _ & _ & _ & He).
  unfold try_except, bind at 1. rewrite Hrun.
  rewrite (He e eq_refl). reflexivity.
Qed.

(** The success path: the cursor moves on by one and the next view is
    announced. *)
Lemma switch_view_started (w : World) (view : View) w2 :
  nth_error (views w) (current_view w) = Some view ->
  run_command h (view_command view) (entering h w view) = (Ok tt, w2) ->
  exists next,
    nth_error (views w)
      ((current_view w + 1) mod List.length (views w)) = Some next /\
    switch_view h w = (Ok tt, print (NextTouch (name next)) (advance w2)).
Proof.
  intros Hv Hrun. rewrite (switch_view_unfold w view Hv).
  destruct (run_command_registry w view _ _ Hrun) as (Hvs & Hc & _ & _ & _).
  assert (Hne : views w <> []).
  { intros E. rewrite E in Hv. destruct (current_view w); discriminate. }
  pose proof (mod_cursor_lt w Hne) as Hlt.
  destruct (nth_error (views w)
              ((current_view w + 1) mod List.length (views w)))
    as [next|] eqn:Hn;
    [| apply nth_error_None in Hn; lia].
  exists next. split; [reflexivity|].
  unfold try_except, bind at 1. rewrite Hrun.
  unfold bind, advance_cursor, modify, get, advance. simpl.
  rewrite Hvs, Hc, Hn. reflexivity.
Qed.

(** Whatever the command does, [switch_view] returns normally with the
    cursor one step further, modulo the number of views. *)
Lemma switch_view_spec (w : World) :
  cursor_ok w ->
  exists w',
    switch_view h w = (Ok tt, w') /\
    views w' = views w /\
    log_paths w' = log_paths w /\
    current_view w' = (current_view w + 1) mod List.length (views w) /\
    visited (console w') = (visited (console w) ++ [current_view w])%list.
Proof.
  intros Hc. unfold cursor_ok in Hc.
  destruct (nth_error (views w) (current_view w)) as [view|] eqn:Hv;
    [| apply nth_error_None in Hv; lia].
  destruct (run_command h (view_command view) (entering h w view))
    as [[[]|e] w2] eqn:Hrun.
  - destruct (run_command_registry w view _ _ Hrun) as (Hvs & Hcv & Hl & Hs & _).
    destruct (switch_view_started w view w2 Hv Hrun) as (next & _ & Heq).
    eexists; split; [exact Heq|]. unfold advance; simpl.
    rewrite visited_app; simpl. rewrite app_nil_r.
    repeat split; congruence.
  - destruct (run_command_registry w view _ _ Hrun) as (Hvs & Hcv & Hl & Hs & _).
    eexists; split; [exact (switch_view_failed w view e w2 Hv Hrun)|].
    unfold advance; simpl.
    rewrite visited_app; simpl. rewrite app_nil_r.
    repeat split; congruence.
Qed.

Lemma advances_spec (k : nat) : forall w,
  cursor_ok w ->
  exists w',
    advances h k w = (Ok tt, w') /\
    views w' = views w /\
    current_view w' = (current_view w + k) mod List.length (views w) /\
    visited (console w') =
      (visited (console w) ++
       map (fun i => (current_view w + i) mod List.length (views w))
           (seq 0 k))%list.
Proof.
  induction k as [|k IH]; intros w Hc.
  - exists w. simpl. rewrite Nat.add_0_r, app_nil_r.
    repeat split; auto. symmetry. apply Nat.mod_small. exact Hc.
  - destruct (switch_view_spec w Hc) as (w1 & Hsw & Hv1 & _ & Hc1 & Hs1).
    assert (Hok1 : cursor_ok w1).
    { unfold cursor_ok in *. rewrite Hc1, Hv1. apply Nat.mod_upper_bound. lia. }
    destruct (IH w1 Hok1) as (w' & Hadv & Hv' & Hc' & Hs').
    exists w'. simpl. unfold bind. rewrite Hsw. split; [exact Hadv|].
    rewrite Hv1 in *. split; [exact Hv'|]. split.
    + rewrite Hc', Hc1. rewrite Nat.Div0.add_mod_idemp_l.
      f_equal. lia.
    + rewrite Hs', Hs1, <- app_assoc. f_equal. simpl.
      rewrite Nat.add_0_r, (Nat.mod_small _ _ Hc). f_equal.
      rewrite <- seq_shift, map_map. apply map_ext. intros i.
      rewrite Hc1, Nat.Div0.add_mod_idemp_l. f_equal. lia.
Qed.

(* ------------------------------------------------------------------ *)
(** ** Probing the tools and building the registry *)

(** [check_command] passes [capture_output=True] together with [stderr]:
    [subprocess.run] raises before running anything, and the bare [except]
    answers [False]. *)
Lemma check_command_False (c : string) (w : World) :
  check_command h c w = (Ok false, w).
Proof. reflexivity. Qed.

Lemma build_available_views_eq (w : World) :
  build_available_views h w = (Ok (build_views no_tools (log_paths w)), w).
Proof. reflexivity. Qed.

Lemma build_views_ends_with_pi (t : Tools) (paths : dict) :
  exists l, build_views t paths = (l ++ [pi_view])%list.
Proof.
  unfold build_views. eexists. rewrite !app_assoc. reflexivity.
Qed.

Lemma build_views_nonempty (t : Tools) (paths : dict) :
  build_views t paths <> [].
Proof.
  destruct (build_views_ends_with_pi t paths) as [l ->].
  destruct l; discriminate.
Qed.

Lemma init_ok (w : World) :
  fst (init h w) = Ok tt /\
  views (snd (init h w)) = build_views no_tools (detect_available_logs h) /\
  current_view (snd (init h w)) = 0 /\
  current_process (snd (init h w)) = None /\
  temp_scripts (snd (init h w)) = [].
Proof.
  pose proof (build_views_nonempty no_tools (detect_available_logs h)) as Hne.
  cbv beta iota zeta delta
    [init bind modify ret raise get try_except build_available_views
     check_command subprocess_run andb is_some bare_except].
  cbn [log_paths set_log_paths]. fold no_tools.
  destruct (build_views no_tools (detect_available_logs h)) eqn:E;
    [congruence|]. cbn. auto.
Qed.

Lemma init_cursor_ok (w : World) : cursor_ok (snd (init h w)).
Proof.
  destruct (init_ok w) as (_ & Hv & Hc & _). unfold cursor_ok.
  rewrite Hv, Hc.
  pose proof (build_views_nonempty no_tools (detect_available_logs h)).
  destruct (build_views no_tools (detect_available_logs h));
    [congruence | simpl; lia].
Qed.

(* ------------------------------------------------------------------ *)
(** ** The input loops *)

Lemma Qgtb_spec (x y : Q) : Qgtb x y = true <-> (y < x)%Q.
Proof.
  unfold Qgtb. rewrite negb_true_iff. split; intros H.
  - apply Qnot_le_lt. intros Hle. apply Qle_bool_iff in Hle. congruence.
  - destruct (Qle_bool x y) eqn:E; [|reflexivity].
    apply Qle_bool_iff in E. exfalso. apply (Qlt_not_le _ _ H E).
Qed.

Lemma Qgtb_false (x y : Q) : Qgtb x y = false <-> (x <= y)%Q.
Proof.
  unfold Qgtb. rewrite negb_false_iff. apply Qle_bool_iff.
Qed.

Lemma started_print (r : report) (w : World) :
  quiet r = true -> started (print r w) = started w.
Proof.
  intros Hq. unfold started, print; simpl. rewrite visited_app.
  destruct r; try discriminate; simpl; rewrite app_nil_r; reflexivity.
Qed.

(** One admitted signal: the effect of [switch_view] after a quiet print. *)
Lemma switch_after_print (r : report) (w : World) :
  quiet r = true -> cursor_ok w ->
  exists w1,
    switch_view h (print r w) = (Ok tt, w1) /\
    views w1 = views w /\ cursor_ok w1 /\ started w1 = S (started w).
Proof.
  intros Hq Hc.
  destruct (switch_view_spec (print r w)) as (w1 & Hsw & Hv & _ & Hcv & Hs);
    [exact Hc|].
  exists w1. split; [exact Hsw|]. simpl in Hv, Hcv.
  split; [exact Hv|]. split.
  - unfold cursor_ok in *. rewrite Hcv, Hv. apply Nat.mod_upper_bound. lia.
  - pose proof (started_print r w Hq) as Hp. unfold started in *.
    rewrite Hs, length_app, Hp. simpl. lia.
Qed.

(** The touch loop starts one transition per signal the gate admits. *)
Lemma touch_loop_started (events : list InputEvent) : forall last w,
  cursor_ok w ->
  exists w',
    touch_loop h events last w = (Ok tt, w') /\
    views w' = views w /\ cursor_ok w' /\
    started w' = started w + List.length (gate_admits events last).
Proof.
  induction events as [|ev rest IH]; intros last w Hc.
  - exists (print Exiting w). simpl. repeat split; auto.
    rewrite started_print by reflexivity. lia.
  - simpl. unfold is_touch_down.
    destruct (Z.eqb (ev_type ev) 1 && Z.eqb (ev_code ev) 330); simpl;
      [| apply IH; exact Hc].
    destruct (Z.eqb (ev_value ev) 1); simpl; [| apply IH; exact Hc].
    destruct (Qgtb (ev_time ev - last) debounce_time); [| apply IH; exact Hc].
    destruct (switch_after_print TouchDetected w eq_refl Hc)
      as (w1 & Hsw & Hv1 & Hc1 & Hs1).
    destruct (IH (ev_time ev) w1 Hc1) as (w' & Hloop & Hv' & Hc' & Hs').
    exists w'. unfold bind at 1. simpl. unfold bind at 1. rewrite Hsw.
    split; [exact Hloop|]. split; [congruence|]. split; [exact Hc'|].
    simpl. lia.
Qed.

(** The keyboard loop starts one transition per space key: no clock is
    read and nothing is dropped. *)
Lemma keyboard_loop_started (keys : list (option ascii)) : forall w,
  stdin_is_tty h = true -> cursor_ok w ->
  exists w',
    keyboard_loop h keys w = (Ok tt, w') /\
    views w' = views w /\ cursor_ok w' /\
    started w' = started w + key_advances keys.
Proof.
  induction keys as [|key rest IH]; intros w Htty Hc.
  - exists (print Exiting w). simpl. repeat split; auto.
    rewrite started_print by reflexivity. lia.
  - simpl. unfold bind at 1, keyboard_round, try_except. rewrite Htty.
    destruct key as [k|].
    + destruct (Ascii.eqb k " ").
      * destruct (switch_after_print KeySwitching w eq_refl Hc)
          as (w1 & Hsw & Hv1 & Hc1 & Hs1).
        unfold bind at 1. simpl. unfold bind at 1. rewrite Hsw. simpl.
        destruct (IH (emit (Sleep (1 # 10)) w1) Htty Hc1)
          as (w' & Hloop & Hv' & Hc' & Hs').
        exists w'. split; [exact Hloop|]. simpl in Hv'.
        split; [congruence|]. split; [exact Hc'|].
        unfold started in *; simpl in *. lia.
      * destruct (Ascii.eqb (PyStr.to_lower k) "q"); simpl.
        -- exists w. repeat split; auto.
        -- destruct (IH (emit (Sleep (1 # 10)) w) Htty Hc)
             as (w' & Hloop & Hv' & Hc' & Hs').
           exists w'. split; [exact Hloop|]. auto.
    + simpl. destruct (IH (emit (Sleep (1 # 10)) w) Htty Hc)
        as (w' & Hloop & Hv' & Hc' & Hs').
      exists w'. split; [exact Hloop|]. auto.
Qed.

(* ------------------------------------------------------------------ *)
(** ** Tearing a process down *)

Lemma remove_pid_absent (p : pid) (l : list pid) :
  existsb (Nat.eqb p) l = false -> remove_pid p l = l.
Proof.
  induction l as [|x l IH]; simpl; [reflexivity|].
  intros H. apply orb_false_iff in H. destruct H as [Hx Hl].
  rewrite Hx. simpl. f_equal. apply IH. exact Hl.
Qed.

Lemma remove_pid_gone (p : pid) (l : list pid) :
  existsb (Nat.eqb p) (remove_pid p l) = false.
Proof.
  induction l as [|x l IH]; simpl; [reflexivity|].
  destruct (Nat.eqb p x) eqn:E; simpl; [exact IH|].
  rewrite E. exact IH.
Qed.

(** With [tmux] on the PATH the whole sequence runs: both sessions are
    asked to go, the child gets SIGTERM, half a second passes, and SIGKILL
    follows iff the child is still there. *)
Lemma kill_current_process_with_tmux (w : World) (p : pid) :
  installed h "tmux" = true ->
  current_process w = Some p ->
  exists w',
    kill_current_process h w = (Ok tt, w') /\
    trace w' =
      (trace w ++
       [Run (kill_session "logmonitoring"); Run (kill_session "apachelogs");
        Terminate p; Sleep (1 # 2); Poll p] ++
       (if alive p w && negb (exits_on_term h p) then [Kill p] else []))%list /\
    running w' = remove_pid p (running w) /\
    current_process w' = None /\
    console w' = console w.
Proof.
  intros Htmux Hp. rewrite kill_current_process_unfold, Hp.
  unfold try_finally, try_except, kill_attempt, subprocess_run, kill_session.
  simpl. rewrite !Htmux. unfold alive, bind, terminate, poll_is_None, modify.
  simpl.
  destruct (exits_on_term h p) eqn:Hex.
  - unfold bind; simpl. rewrite remove_pid_gone. simpl.
    eexists; split; [reflexivity|]. simpl.
    rewrite andb_false_r, <- !app_assoc. simpl. auto.
  - unfold bind; simpl.
    destruct (existsb (Nat.eqb p) (running w)) eqn:Hal; simpl.
    + eexists; split; [reflexivity|]. simpl.
      rewrite <- !app_assoc. simpl. auto.
    + eexists; split; [reflexivity|]. simpl.
      rewrite <- !app_assoc, remove_pid_absent by exact Hal. simpl. auto.
Qed.

(** Without [tmux] the first [subprocess.run] raises: the handler reports,
    the handle is cleared, and the child is never signalled. *)
Lemma kill_current_process_without_tmux (w : World) (p : pid) :
  installed h "tmux" = false ->
  current_process w = Some p ->
  kill_current_process h w =
  (Ok tt, set_current_process None
            (print (ErrorKillingProcess FileNotFoundError) w)).
Proof.
  intros Htmux Hp. rewrite kill_current_process_unfold, Hp.
  unfold try_finally, try_except, kill_attempt, subprocess_run, kill_session.
  simpl. rewrite !Htmux. reflexivity.
Qed.

(* ------------------------------------------------------------------ *)
(** ** Temporary files and [cleanup] *)

Lemma In_remove_str (x s : string) (l : list string) :
  In x (remove_str s l) <-> In x l /\ x <> s.
Proof.
  unfold remove_str. rewrite filter_In, negb_true_iff.
  split; intros [H1 H2]; split; auto.
  - intros ->. rewrite String.eqb_refl in H2. discriminate.
  - apply String.eqb_neq. auto.
Qed.

Lemma In_unlink_all (x : string) (l : list string) : forall fs,
  In x (unlink_all l fs) <-> In x fs /\ ~ In x l.
Proof.
  induction l as [|s l IH]; intros fs; simpl.
  - tauto.
  - rewrite IH, In_remove_str. intuition congruence.
Qed.

Lemma mem_str_In (s : string) (l : list string) :
  mem_str s l = true <-> In s l.
Proof.
  unfold mem_str. rewrite existsb_exists. split.
  - intros (x & Hx & E). apply String.eqb_eq in E. subst. exact Hx.
  - intros H. exists s. split; [exact H | apply String.eqb_refl].
Qed.

Lemma remove_str_absent (s : string) (l : list string) :
  mem_str s l = false -> remove_str s l = l.
Proof.
  unfold mem_str, remove_str. induction l as [|x l IH]; simpl; [reflexivity|].
  intros H. apply orb_false_iff in H. destruct H as [Hx Hl].
  rewrite Hx. simpl. f_equal. apply IH. exact Hl.
Qed.

Lemma release_cons (s : string) (l : list string) (w : World) :
  release (s :: l) w =
  release l (if mem_str s (files w)
             then emit (Unlink s) (set_files (remove_str s (files w)) w)
             else w).
Proof.
  unfold release. simpl. unfold bind, try_except, os_unlink.
  destruct (mem_str s (files w)); reflexivity.
Qed.

(** The loop never raises; it deletes every listed file and touches
    nothing but the file table and the trace. *)
Lemma release_spec (l : list string) : forall w,
  fst (release l w) = Ok tt /\
  files (snd (release l w)) = unlink_all l (files w) /\
  current_process (snd (release l w)) = current_process w /\
  running (snd (release l w)) = running w /\
  temp_scripts (snd (release l w)) = temp_scripts w /\
  current_view (snd (release l w)) = current_view w /\
  views (snd (release l w)) = views w /\
  console (snd (release l w)) = console w.
Proof.
  induction l as [|s l IH]; intros w.
  - repeat split.
  - rewrite release_cons. simpl.
    destruct (mem_str s (files w)) eqn:Hm.
    + destruct (IH (emit (Unlink s) (set_files (remove_str s (files w)) w)))
        as (H1 & H2 & H3 & H4 & H5 & H6 & H7 & H8).
      repeat split; assumption.
    + rewrite (remove_str_absent _ _ Hm).
      destruct (IH w) as (H1 & H2 & H3 & H4 & H5 & H6 & H7 & H8).
      repeat split; assumption.
Qed.

(** [cleanup] deletes the tracked scripts, empties the list, and then
    raises: the final [subprocess.run] calls pass [capture_output=True]
    together with [stderr]. *)
Lemma cleanup_eq (w : World) :
  let w1 := snd (kill_current_process h (print CleaningUp w)) in
  cleanup h w =
  (Raise ValueError,
   set_temp_scripts [] (snd (release (temp_scripts w1) w1))).
Proof.
  intros w1. unfold cleanup. unfold bind at 1. simpl.
  unfold bind at 1.
  destruct (kill_current_process_clears (print CleaningUp w)) as [Hok _].
  fold w1. destruct (kill_current_process h (print CleaningUp w)) as [r w1'].
  simpl in *. subst r w1. unfold bind at 1. simpl. unfold bind at 1.
  fold (release (temp_scripts w1')).
  destruct (release_spec (temp_scripts w1') w1') as [Hr _].
  destruct (release (temp_scripts w1') w1') as [r w2]. simpl in *. subst r.
  reflexivity.
Qed.

Lemma set_temp_scripts_nil (w : World) :
  temp_scripts w = [] -> set_temp_scripts [] w = w.
Proof. destruct w; simpl; intros ->; reflexivity. Qed.

(** What the first [cleanup] leaves, and what a second one does to it. *)
Lemma cleanup_state (w : World) :
  current_process (snd (cleanup h w)) = None /\
  temp_scripts (snd (cleanup h w)) = [].
Proof.
  rewrite cleanup_eq. simpl.
  destruct (kill_current_process_clears (print CleaningUp w)) as [_ Hnone].
  set (w1 := snd (kill_current_process h (print CleaningUp w))) in *.
  destruct (release_spec (temp_scripts w1) w1) as (_ & _ & Hcp & _).
  split; [congruence | reflexivity].
Qed.

Lemma cleanup_again (w : World) :
  current_process w = None -> temp_scripts w = [] ->
  cleanup h w = (Raise ValueError, print CleaningUp w).
Proof.
  intros Hcp Hts. rewrite cleanup_eq. cbv zeta.
  rewrite kill_current_process_unfold. simpl. rewrite Hcp. simpl.
  rewrite Hts. simpl. rewrite set_temp_scripts_nil by exact Hts.
  reflexivity.
Qed.

(** The keyboard loop keeps the cursor in range, with or without a
    terminal. *)
Lemma keyboard_loop_cursor_ok (keys : list (option ascii)) (w : World) :
  cursor_ok w ->
  fst (keyboard_loop h keys w) = Ok tt /\
  cursor_ok (snd (keyboard_loop h keys w)).
Proof.
  intros Hc. destruct (stdin_is_tty h) eqn:Htty.
  - destruct (keyboard_loop_started keys w Htty Hc) as (w' & -> & _ & Hc' & _).
    auto.
  - destruct keys as [|key rest]; simpl; [auto|].
    unfold bind, keyboard_round, try_except. rewrite Htty. simpl. auto.
Qed.

End Switch.

(* ------------------------------------------------------------------ *)
(** ** One process at a time, when [tmux] can be run *)

(** Frame proofs for other projections: unfold the method, then go through
    its structure; primitives are checked by computation. *)
Ltac frame_prim :=
  let w := fresh "w" in
  intro w;
  cbv beta delta [run_program spawn poll_is_None mktemp os_unlink];
  repeat match goal with
         | |- context [if ?b then _ else _] => destruct b
         end;
  (split;
   [ reflexivity
   | let He := fresh "He" in
     intros ? He; first [discriminate He | inversion He; reflexivity] ]).

Ltac frame_step :=
  lazymatch goal with
  | |- keeps _ (subprocess_run _ _ _ _) => unfold subprocess_run
  | |- keeps _ (Popen _ _) => unfold Popen
  | |- keeps _ (kill _) => unfold kill
  | |- keeps _ (terminate _ _) => unfold terminate
  | |- keeps _ (time_sleep _) => unfold time_sleep
  | |- keeps _ (set_process _) => unfold set_process
  | |- keeps _ create_formatter_script => unfold create_formatter_script
  | |- keeps _ (check_command _ _) => unfold check_command
  | |- keeps _ (modify _) =>
      apply keeps_modify; intros ?;
      repeat match goal with
             | |- context [if ?b then _ else _] => destruct b
             end;
      reflexivity
  | |- _ => first [ keeps_step | solve [frame_prim] ]
  end.

Ltac frame_tac := repeat frame_step.

Section Exclusive.

Variable h : Host.

Lemma processes_eq (w w' : World) :
  processes w' = processes w ->
  running w' = running w /\ current_process w' = current_process w.
Proof. unfold processes. intros H. inversion H. auto. Qed.

Lemma one_spawn_keeps {A} (m : M A) : keeps processes m -> one_spawn m.
Proof.
  intros Hk w Hr Hc. destruct (Hk w) as [Hp _].
  apply processes_eq in Hp. destruct Hp as [Hr' Hc'].
  unfold exclusive. rewrite Hr', Hc', Hr, Hc. reflexivity.
Qed.

Lemma one_spawn_bind {A B} (m : M A) (k : A -> M B) :
  keeps processes m -> (forall a, one_spawn (k a)) -> one_spawn (bind m k).
Proof.
  intros Hm Hk w Hr Hc. unfold bind.
  destruct (Hm w) as [Hp _]. apply processes_eq in Hp.
  destruct Hp as [Hr' Hc'].
  destruct (m w) as [[a|e] w1]; simpl in *.
  - apply Hk; congruence.
  - unfold exclusive. rewrite Hr', Hc', Hr, Hc. reflexivity.
Qed.

(** The tail of every [start_*] method. *)
Lemma one_spawn_Popen (c : cmdline) :
  one_spawn (p <- Popen h c ;; set_process p).
Proof.
  intros w Hr Hc. unfold bind, Popen, spawn, set_process, modify, raise.
  destruct c as [[|prog args]|cmd]; simpl.
  - unfold exclusive. rewrite Hr, Hc. reflexivity.
  - destruct (installed h prog); simpl; unfold exclusive; simpl;
      rewrite Hr; [reflexivity | rewrite Hc; reflexivity].
  - unfold exclusive; simpl. rewrite Hr. reflexivity.
Qed.

Ltac one_spawn_tac :=
  repeat first
    [ apply one_spawn_Popen
    | apply one_spawn_bind; [ solve [frame_tac] | intros ? ]
    | lazymatch goal with
      | |- one_spawn (if ?b then _ else _) => destruct b
      | |- one_spawn (match ?x with _ => _ end) => destruct x
      | |- one_spawn (let _ := _ in _) => cbv zeta
      end
    | solve [ apply one_spawn_keeps; frame_tac ] ].

Lemma one_spawn_start_single_log path : one_spawn (start_single_log h path).
Proof. unfold start_single_log. one_spawn_tac. Qed.

Lemma one_spawn_run_command (c : command) : one_spawn (run_command h c).
Proof.
  destruct c; simpl.
  - unfold start_htop. one_spawn_tac.
  - unfold start_top. one_spawn_tac.
  - apply one_spawn_start_single_log.
  - unfold start_site_logs. one_spawn_tac; apply one_spawn_start_single_log.
  - unfold start_tmux_apache_view, apache_grid. one_spawn_tac.
  - unfold start_tmux_multiview. one_spawn_tac.
  - unfold start_multitail_combined. one_spawn_tac.
  - unfold start_pi_monitor. one_spawn_tac.
Qed.

Lemma remove_pid_single (p : pid) : remove_pid p [p] = [].
Proof. unfold remove_pid; simpl. rewrite Nat.eqb_refl. reflexivity. Qed.

(** With [tmux] on the PATH the teardown leaves no live child. *)
Lemma kill_current_process_exclusive (w : World) :
  installed h "tmux" = true -> exclusive w ->
  running (snd (kill_current_process h w)) = [] /\
  current_process (snd (kill_current_process h w)) = None.
Proof.
  intros Htmux Hex. unfold exclusive in Hex.
  destruct (current_process w) as [p|] eqn:Hp.
  - destruct (kill_current_process_with_tmux h w p Htmux Hp)
      as (w' & -> & _ & Hr & Hc & _).
    simpl. rewrite Hr, Hex, remove_pid_single. auto.
  - rewrite kill_current_process_unfold, Hp. simpl. auto.
Qed.

Lemma exclusive_switch_view (w : World) :
  installed h "tmux" = true -> cursor_ok w -> exclusive w ->
  exclusive (snd (switch_view h w)).
Proof.
  intros Htmux Hc Hex. unfold cursor_ok in Hc.
  destruct (nth_error (views w) (current_view w)) as [view|] eqn:Hv;
    [| apply nth_error_None in Hv; lia].
  destruct (kill_current_process_exclusive w Htmux Hex) as [Hr Hcp].
  pose proof (one_spawn_run_command (view_command view) (entering h w view)
                Hr Hcp) as Hone.
  destruct (run_command h (view_command view) (entering h w view))
    as [[[]|e] w2] eqn:Hrun; simpl in Hone.
  - destruct (switch_view_started h w view w2 Hv Hrun) as (next & _ & ->).
    exact Hone.
  - rewrite (switch_view_failed h w view e w2 Hv Hrun). exact Hone.
Qed.

Lemma settled_switch_view (w : World) :
  installed h "tmux" = true -> settled w -> settled (snd (switch_view h w)).
Proof.
  intros Htmux [Hc Hex]. split.
  - destruct (switch_view_spec h w Hc) as (w' & -> & Hv & _ & Hcv & _).
    unfold cursor_ok in *. simpl. rewrite Hcv, Hv.
    apply Nat.mod_upper_bound. lia.
  - apply exclusive_switch_view; assumption.
Qed.

Lemma settled_touch_loop (events : list InputEvent) : forall last w,
  installed h "tmux" = true -> settled w ->
  settled (snd (touch_loop h events last w)).
Proof.
  induction events as [|ev rest IH]; intros last w Htmux Hs.
  - exact Hs.
  - simpl.
    destruct (Z.eqb (ev_type ev) 1 && Z.eqb (ev_code ev) 330);
      [| apply IH; assumption].
    destruct (Z.eqb (ev_value ev) 1); [| apply IH; assumption].
    destruct (Qgtb (ev_time ev - last) debounce_time);
      [| apply IH; assumption].
    unfold bind at 1. simpl. unfold bind at 1.
    pose proof (settled_switch_view (print TouchDetected w) Htmux Hs) as H1.
    destruct (switch_view h (print TouchDetected w)) as [[[]|e] w1];
      simpl in *; [apply IH; assumption | exact H1].
Qed.

Lemma settled_keyboard_loop (keys : list (option ascii)) : forall w,
  installed h "tmux" = true -> settled w ->
  settled (snd (keyboard_loop h keys w)).
Proof.
  induction keys as [|key rest IH]; intros w Htmux Hs.
  - exact Hs.
  - simpl. unfold bind at 1, keyboard_round, try_except.
    destruct (stdin_is_tty h); [| exact Hs].
    destruct key as [k|].
    + destruct (Ascii.eqb k " ").
      * unfold bind at 1. simpl. unfold bind at 1.
        pose proof (settled_switch_view (print KeySwitching w) Htmux Hs) as H1.
        destruct (switch_view h (print KeySwitching w)) as [[[]|e] w1];
          simpl in *; [apply IH; assumption | exact H1].
      * destruct (Ascii.eqb (PyStr.to_lower k) "q"); simpl;
          [exact Hs | apply IH; assumption].
    + simpl. apply IH; assumption.
Qed.

(** Every state the program is in between two input signals, from the
    constructor on, has at most one live child, and the handle names it. *)
Lemma exclusive_reachable (events : list InputEvent)
      (keys : list (option ascii)) :
  installed h "tmux" = true ->
  settled (snd ((init h ;; switch_view h ;; touch_loop h events 0%Q) boot)) /\
  settled (snd ((init h ;; switch_view h ;; keyboard_loop h keys) boot)).
Proof.
  intros Htmux.
  assert (H0 : settled (snd (init h boot))).
  { split; [apply init_cursor_ok|].
    destruct (init_ok h boot) as (_ & _ & _ & Hcp & _).
    unfold exclusive. rewrite Hcp.
    unfold init, bind; simpl.
    destruct (build_views _ _); reflexivity. }
  destruct (init_ok h boot) as (Hok & _).
  unfold bind at 1 3. destruct (init h boot) as [r w0]. simpl in *. subst r.
  pose proof (settled_switch_view w0 Htmux H0) as H1.
  destruct H0 as [Hc0 _].
  destruct (switch_view_spec h w0 Hc0) as (w1 & Hsw & _).
  unfold bind. rewrite Hsw in *. simpl in H1.
  split; [apply settled_touch_loop | apply settled_keyboard_loop]; assumption.
Qed.

End Exclusive.

(* ------------------------------------------------------------------ *)
(** ** Temporary files: which are tracked, which are released *)

Section Artifacts.

Variable h : Host.

(** A formatter script is on the list from the moment it exists. *)
Lemma create_formatter_script_tracked (w : World) :
  create_formatter_script w =
  (Ok (tmp_path w ".py"),
   set_temp_scripts (temp_scripts w ++ [tmp_path w ".py"])
     (emit (MkTemp (tmp_path w ".py"))
        (set_files (files w ++ [tmp_path w ".py"])
           (set_next_tmp (S (next_tmp w)) w)))).
Proof. reflexivity. Qed.

(** The monitor script is written to disk and never put on the list. *)
Lemma start_pi_monitor_untracked (w : World) :
  files (snd (start_pi_monitor h w)) = (files w ++ [tmp_path w ".sh"])%list /\
  temp_scripts (snd (start_pi_monitor h w)) = temp_scripts w.
Proof.
  unfold start_pi_monitor, bind, mktemp, Popen, spawn, set_process, modify.
  simpl. destruct (installed h "bash"); simpl; auto.
Qed.

Lemma tracked_kill_current_process :
  keeps tracked (kill_current_process h).
Proof. unfold kill_current_process. frame_tac. Qed.

(** After [cleanup] no file that was on the list is left, and every other
    file is where it was. *)
Lemma cleanup_files (w : World) (f : string) :
  In f (files (snd (cleanup h w))) <->
  In f (files w) /\ ~ In f (temp_scripts w).
Proof.
  rewrite cleanup_eq. cbv zeta. simpl.
  destruct (tracked_kill_current_process (print CleaningUp w)) as [Ht _].
  set (w1 := snd (kill_current_process h (print CleaningUp w))) in *.
  unfold tracked in Ht. simpl in Ht. inversion Ht as [[Hts Hfs]].
  destruct (release_spec (temp_scripts w1) w1) as (_ & Hf & _).
  rewrite Hf, In_unlink_all, Hts, Hfs. tauto.
Qed.

End Artifacts.

(* ------------------------------------------------------------------ *)
(** ** The registry of views *)


(** C6, as the code has it: from the catalog of the two main-site logs and
    without tmux, the list is the system-stats view if htop or top was
    found, the two single-log views, the combined view of the main site,
    the multitail view if multitail was found, and the Pi System Monitor;
    no tmux view and no view of the dev site. *)
Theorem C6_zemia_catalog_views (t : Tools) (access_path error_path : string) :
  tmux t = false ->
  build_views t (zemia_catalog access_path error_path) =
  ((if htop t then [mkView "System Stats (htop)" start_htop_cmd]
    else if top t then [mkView "System Stats (top)" start_top_cmd]
    else []) ++
   [ mkView "Zemia Access Log" (start_single_log_cmd access_path);
     mkView "Zemia Error Log" (start_single_log_cmd error_path);
     main_site_view ] ++
   (if multitail t
    then [mkView "Multitail Combined View" start_multitail_combined_cmd]
    else []) ++
   [pi_view])%list.
Proof.
  intros Htmux. destruct t as [tm mt ht tp]. simpl in Htmux. subst tm.
  unfold build_views. simpl.
  destruct ht, tp, mt; reflexivity.
Qed.

Lemma C6_zemia_catalog_views_witness :
  build_views no_tools
    (zemia_catalog "/var/log/apache2/zemia-access.log"
                   "/var/log/apache2/zemia-error.log") =
  [ mkView "Zemia Access Log"
      (start_single_log_cmd "/var/log/apache2/zemia-access.log");
    mkView "Zemia Error Log"
      (start_single_log_cmd "/var/log/apache2/zemia-error.log");
    main_site_view; pi_view ].
Proof.
  apply (C6_zemia_catalog_views no_tools
           "/var/log/apache2/zemia-access.log"
           "/var/log/apache2/zemia-error.log").
  reflexivity.
Defined.

(** C6 as worded fails: on a host whose catalog is exactly the two
    main-site logs the constructor registers four views, the combined
    main-site view among them, not just the two single-log views. *)
Lemma C6_combined_view_present :
  detect_available_logs Hosts.zemia_site =
    zemia_catalog "/var/log/apache2/zemia-access.log"
                  "/var/log/apache2/zemia-error.log" /\
  map name (views (snd (init Hosts.zemia_site boot))) =
    [ "Zemia Access Log"; "Zemia Error Log";
      "Main Site (zemia.uk) - All Logs"; "Pi System Monitor" ] /\
  In main_site_view (views (snd (init Hosts.zemia_site boot))).
Proof.
  split; [reflexivity|]. split; [reflexivity|].
  vm_compute. right; right; left; reflexivity.
Qed.

(* ------------------------------------------------------------------ *)
(** ** The cursor *)

(** C2: the constructor leaves the cursor in range; from a cursor in range
    (so from a non-empty view list) one [switch_view] returns normally
    with the cursor one further modulo the number of views, still in
    range; both input loops keep it in range; and [len(views)] admitted
    signals in a row bring the cursor back where it was, having switched
    to every view exactly once. *)
Theorem C2_cursor_cycles (h : Host) (w : World) :
  cursor_ok w ->
  cursor_ok (snd (init h boot)) /\
  (exists w1,
      switch_view h w = (Ok tt, w1) /\
      views w1 = views w /\
      current_view w1 = (current_view w + 1) mod List.length (views w) /\
      cursor_ok w1) /\
  (forall events last, cursor_ok (snd (touch_loop h events last w))) /\
  (forall keys, cursor_ok (snd (keyboard_loop h keys w))) /\
  (exists w' cycle,
      advances h (List.length (views w)) w = (Ok tt, w') /\
      views w' = views w /\
      current_view w' = current_view w /\
      visited (console w') = (visited (console w) ++ cycle)%list /\
      Permutation cycle (seq 0 (List.length (views w)))).
Proof.
  intros Hc. split; [apply init_cursor_ok|]. split; [|split; [|split]].
  - destruct (switch_view_spec h w Hc) as (w1 & Hsw & Hv & _ & Hcv & _).
    exists w1. repeat split; auto.
    unfold cursor_ok in *. rewrite Hcv, Hv. apply Nat.mod_upper_bound. lia.
  - intros events last.
    destruct (touch_loop_started h events last w Hc) as (w' & -> & _ & Hc' & _).
    exact Hc'.
  - intros keys. apply keyboard_loop_cursor_ok. exact Hc.
  - destruct (advances_spec h (List.length (views w)) w Hc)
      as (w' & Hadv & Hv & Hcv & Hs).
    exists w'. eexists. split; [exact Hadv|]. split; [exact Hv|].
    split; [| split; [exact Hs|]].
    + rewrite Hcv. unfold cursor_ok in Hc.
      replace (current_view w + List.length (views w))
        with (current_view w + 1 * List.length (views w)) by lia.
      rewrite Nat.Div0.mod_add. apply Nat.mod_small. exact Hc.
    + apply rotation_Permutation. exact Hc.
Qed.

Lemma C2_cursor_cycles_witness :
  cursor_ok zemia_world /\
  exists w' cycle,
    advances Hosts.zemia_site (List.length (views zemia_world)) zemia_world =
      (Ok tt, w') /\
    views w' = views zemia_world /\
    current_view w' = current_view zemia_world /\
    visited (console w') = (visited (console zemia_world) ++ cycle)%list /\
    Permutation cycle (seq 0 (List.length (views zemia_world))).
Proof.
  assert (Hc : cursor_ok zemia_world) by (unfold cursor_ok; vm_compute; lia).
  split; [exact Hc|].
  exact (proj2 (proj2 (proj2 (proj2
           (C2_cursor_cycles Hosts.zemia_site zemia_world Hc))))).
Defined.

(* ------------------------------------------------------------------ *)
(** ** A view that fails to start *)

(** C5, as the code has it: when the command of the current view raises,
    [switch_view] returns normally; the world it leaves is the one the
    command left, plus the error report, plus the cursor moved on by one
    position modulo the number of views.  That is the step a successful
    start takes too.  Nothing else happens: the following view is not
    attempted, the trace and the process table are untouched, and one
    transition was started. *)
Theorem C5_failed_start_moves_on (h : Host) (w : World) (view : View)
        (e : exn) (w2 : World) :
  nth_error (views w) (current_view w) = Some view ->
  run_command h (view_command view) (entering h w view) = (Raise e, w2) ->
  let w' := advance (print (ErrorStartingView e) w2) in
  switch_view h w = (Ok tt, w') /\
  current_view w' = (current_view w + 1) mod List.length (views w) /\
  console w' = (console w2 ++ [ErrorStartingView e])%list /\
  trace w' = trace w2 /\
  running w' = running w2 /\
  current_process w' = current_process w2 /\
  started w' = started w + 1 /\
  (forall v, cursor_ok v ->
     current_view (snd (switch_view h v)) =
     (current_view v + 1) mod List.length (views v)).
Proof.
  intros Hv Hrun w'.
  destruct (run_command_registry h w view _ _ Hrun) as (Hvs & Hc & _ & Hs & _).
  split; [exact (switch_view_failed h w view e w2 Hv Hrun)|].
  subst w'. unfold advance; simpl. rewrite Hvs, Hc.
  repeat split; try reflexivity.
  - unfold started; simpl. rewrite visited_app, Hs, !length_app. simpl. lia.
  - intros v Hcv.
    destruct (switch_view_spec h v Hcv) as (v' & -> & _ & _ & Hcv' & _).
    exact Hcv'.
Qed.

Lemma C5_failed_start_moves_on_witness :
  nth_error (views syslog_world) (current_view syslog_world)
    = Some syslog_view /\
  run_command Hosts.without_sudo (view_command syslog_view)
    (entering Hosts.without_sudo syslog_world syslog_view)
    = (Raise FileNotFoundError, syslog_failed) /\
  switch_view Hosts.without_sudo syslog_world =
    (Ok tt, advance (print (ErrorStartingView FileNotFoundError)
                       syslog_failed)) /\
  current_view (advance (print (ErrorStartingView FileNotFoundError)
                           syslog_failed)) =
    (current_view syslog_world + 1) mod List.length (views syslog_world).
Proof.
  assert (H1 : nth_error (views syslog_world) (current_view syslog_world)
               = Some syslog_view) by reflexivity.
  assert (H2 : run_command Hosts.without_sudo (view_command syslog_view)
                 (entering Hosts.without_sudo syslog_world syslog_view)
               = (Raise FileNotFoundError, syslog_failed))
    by (vm_compute; reflexivity).
  split; [exact H1|]. split; [exact H2|].
  pose proof (C5_failed_start_moves_on Hosts.without_sudo syslog_world
                syslog_view FileNotFoundError syslog_failed H1 H2) as H.
  cbv zeta in H. split; [exact (proj1 H) | exact (proj1 (proj2 H))].
Defined.

(** C5 as worded fails: with three views and a first view that cannot
    start, one [switch_view] leaves the cursor on view 1, not on view 2;
    one transition was started, no child was spawned, and the following
    view was not attempted. *)
Lemma C5_no_extra_step_no_retry :
  map name (views syslog_world) =
    ["Syslog Log"; "Auth Log"; "Pi System Monitor"] /\
  current_view syslog_world = 0 /\
  console (snd (switch_view Hosts.without_sudo syslog_world)) =
    [SwitchingTo 0 "Syslog Log"; ErrorStartingView FileNotFoundError] /\
  current_view (snd (switch_view Hosts.without_sudo syslog_world)) = 1 /\
  current_view (snd (switch_view Hosts.without_sudo syslog_world)) <> 2 /\
  visited (console (snd (switch_view Hosts.without_sudo syslog_world))) = [0] /\
  spawned (trace (snd (switch_view Hosts.without_sudo syslog_world))) = [].
Proof.
  vm_compute. repeat split; discriminate.
Qed.

(* ------------------------------------------------------------------ *)
(** ** The debounce gate *)

(** C3, as the code has it.  In touch mode, with a first press admitted at
    [t1] and a second press at [t2 > t1]: the second is admitted iff
    [t2 - t1 > 1], the last admitted time moves only on admission, so one
    transition starts when [t2 - t1 <= 1] and two when [t2 - t1 > 1]; for
    any run of events the loop starts one transition per signal the gate
    admits.  In keyboard mode there is no gate: every space key starts a
    transition, whatever the time between keys. *)
Theorem C3_debounce_gate (h : Host) (w : World) (t1 t2 : Q) :
  cursor_ok w -> (debounce_time < t1)%Q -> (t1 < t2)%Q ->
  let w' := snd (touch_loop h [touch_down t1; touch_down t2] 0%Q w) in
  (Qgtb (t2 - t1)%Q debounce_time = true <-> (1 < t2 - t1)%Q) /\
  gate_admits [touch_down t1; touch_down t2] 0%Q =
    (if Qgtb (t2 - t1)%Q debounce_time then [t1; t2] else [t1]) /\
  ((t2 - t1 <= 1)%Q -> started w' = started w + 1) /\
  ((1 < t2 - t1)%Q -> started w' = started w + 2) /\
  (forall events last,
      started (snd (touch_loop h events last w)) =
      started w + List.length (gate_admits events last)) /\
  (stdin_is_tty h = true ->
   forall keys,
      started (snd (keyboard_loop h keys w)) = started w + key_advances keys).
Proof.
  intros Hc Ht1 Ht12 w'.
  assert (Hfirst : Qgtb (t1 - 0)%Q debounce_time = true).
  { apply Qgtb_spec. unfold debounce_time in *. lra. }
  assert (Hgate : gate_admits [touch_down t1; touch_down t2] 0%Q =
                  if Qgtb (t2 - t1)%Q debounce_time then [t1; t2] else [t1]).
  { simpl. rewrite Hfirst. destruct (Qgtb (t2 - t1)%Q debounce_time);
      reflexivity. }
  assert (Hloop : forall events last,
             started (snd (touch_loop h events last w)) =
             started w + List.length (gate_admits events last)).
  { intros events last.
    destruct (touch_loop_started h events last w Hc) as (v & -> & _ & _ & Hs).
    exact Hs. }
  split; [apply Qgtb_spec|]. split; [exact Hgate|].
  split; [|split; [|split]].
  - intros Hle. subst w'. rewrite Hloop, Hgate.
    apply Qgtb_false in Hle. unfold debounce_time. rewrite Hle. reflexivity.
  - intros Hlt. subst w'. rewrite Hloop, Hgate.
    apply Qgtb_spec in Hlt. unfold debounce_time. rewrite Hlt. reflexivity.
  - exact Hloop.
  - intros Htty keys.
    destruct (keyboard_loop_started h keys w Htty Hc) as (v & -> & _ & _ & Hs).
    exact Hs.
Qed.

Lemma C3_debounce_gate_witness :
  cursor_ok zemia_world /\ (debounce_time < 5)%Q /\ (5 < 7)%Q /\
  started (snd (touch_loop Hosts.zemia_site [touch_down 5; touch_down 7] 0%Q
                  zemia_world)) = started zemia_world + 2.
Proof.
  assert (Hc : cursor_ok zemia_world) by (unfold cursor_ok; vm_compute; lia).
  assert (H1 : (debounce_time < 5)%Q) by reflexivity.
  assert (H2 : (5 < 7)%Q) by reflexivity.
  split; [exact Hc|]. split; [exact H1|]. split; [exact H2|].
  pose proof (C3_debounce_gate Hosts.zemia_site zemia_world 5 7 Hc H1 H2) as H.
  cbv zeta in H.
  apply (proj1 (proj2 (proj2 (proj2 H)))). reflexivity.
Defined.

(** C3 as worded fails twice.  In touch mode, two presses exactly one
    second apart ([t2 - t1 >= 1]) start one transition, not two.  In
    keyboard mode two space keys start two transitions although no time at
    all is required between them: the loop reads no clock. *)
Lemma C3_boundary_and_keyboard :
  (1 <= 6 - 5)%Q /\
  started (snd (touch_loop Hosts.zemia_site [touch_down 5; touch_down 6] 0%Q
                  zemia_world)) = started zemia_world + 1 /\
  started (snd (touch_loop Hosts.zemia_site [touch_down 5; touch_down 6] 0%Q
                  zemia_world)) <> started zemia_world + 2 /\
  started (snd (keyboard_loop Hosts.zemia_site [Some " "%char; Some " "%char]
                  zemia_world)) = started zemia_world + 2.
Proof.
  split; [discriminate|]. vm_compute. repeat split; discriminate.
Qed.

(* ------------------------------------------------------------------ *)
(** ** The four-pane tmux view *)

(** C7: on every host and in every world, [start_tmux_apache_view] raises
    [ValueError] in its first statement and leaves the world as it was: no
    session is destroyed or created, no pane is split, no keys are sent,
    nothing is attached.  The first [subprocess.run] passes
    [capture_output=True] together with [stderr]. *)
Theorem C7_apache_view_raises_at_once (h : Host) (w : World) :
  start_tmux_apache_view h w = (Raise ValueError, w).
Proof. reflexivity. Qed.

(** What the method is written to do: were its first call made the way
    [kill_current_process] makes it ([capture_output=True] alone), the
    session would be destroyed, created afresh, split three times, fed
    four times, and attached last. *)
Lemma apache_grid_sequence :
  map event_verb
    (trace (snd ((subprocess_run Hosts.both_sites (kill_session "apachelogs")
                    true None ;;
                  apache_grid Hosts.both_sites) both_sites_world))) =
  [ "kill-session"; "new-session";
    "split-window"; "select-pane"; "split-window"; "select-pane";
    "split-window";
    "mktemp"; "send-keys"; "send-keys"; "mktemp"; "send-keys"; "send-keys";
    "attach" ].
Proof. vm_compute. reflexivity. Qed.

(* ------------------------------------------------------------------ *)
(** ** Shutdown *)

(** C9: [cleanup] raises [ValueError] every time it is called, the first
    time and the second, because its final [subprocess.run] calls pass
    [capture_output=True] together with [stderr].  The state part of the
    claim holds: after the first call there is no handle and no tracked
    script, and a second call changes nothing but the console. *)
Theorem C9_cleanup_raises (h : Host) (w : World) :
  fst (cleanup h w) = Raise ValueError /\
  fst (cleanup h (snd (cleanup h w))) = Raise ValueError /\
  current_process (snd (cleanup h w)) = None /\
  temp_scripts (snd (cleanup h w)) = [] /\
  snd (cleanup h (snd (cleanup h w))) = print CleaningUp (snd (cleanup h w)).
Proof.
  destruct (cleanup_state h w) as [Hcp Hts].
  rewrite (cleanup_again h (snd (cleanup h w)) Hcp Hts).
  rewrite (cleanup_eq h w) at 1. simpl. auto.
Qed.

(** C8: the two formatter scripts the session wrote were tracked and are
    gone after [cleanup]; the monitor script was written, never tracked,
    and is still on disk. *)
Theorem C8_monitor_script_left_behind :
  spawned (trace zemia_session) = [0; 1; 2; 3] /\
  filter (fun e => match e with MkTemp _ => true | _ => false end)
         (trace zemia_session) =
    [MkTemp "/tmp/tmp0.py"; MkTemp "/tmp/tmp1.py"; MkTemp "/tmp/tmp2.sh"] /\
  filter (fun e => match e with Unlink _ => true | _ => false end)
         (trace zemia_session) =
    [Unlink "/tmp/tmp0.py"; Unlink "/tmp/tmp1.py"] /\
  temp_scripts zemia_session = [] /\
  files zemia_session = ["/tmp/tmp2.sh"].
Proof. vm_compute. repeat split. Qed.

(* ------------------------------------------------------------------ *)
(** ** Teardown on a host without tmux *)

(** C4: on a host without [tmux], [kill_current_process] with an active
    child sends no signal at all: the first [subprocess.run] raises
    [FileNotFoundError], the handler reports it, the handle is cleared and
    the child keeps running. *)
Theorem C4_no_signal_without_tmux :
  current_process pi_first_view = Some 0 /\
  running pi_first_view = [0] /\
  kill_current_process Hosts.pi_without_tmux pi_first_view =
    (Ok tt, set_current_process None
              (print (ErrorKillingProcess FileNotFoundError) pi_first_view)) /\
  trace (snd (kill_current_process Hosts.pi_without_tmux pi_first_view)) =
    trace pi_first_view /\
  running (snd (kill_current_process Hosts.pi_without_tmux pi_first_view)) =
    [0].
Proof. vm_compute. repeat split. Qed.

(** C1: on a host without [tmux], after the start-up view and one more
    [switch_view], children 0 and 1 are both alive, and they still are
    when the whole program has ended; child 0 was never sent a signal, and
    the handle names child 1 only. *)
Theorem C1_two_children_alive_without_tmux :
  running pi_first_view = [0] /\
  running (snd (switch_view Hosts.pi_without_tmux pi_first_view)) = [0; 1] /\
  running (snd (main Hosts.pi_without_tmux [touch_down 5] [] boot)) = [0; 1] /\
  current_process (snd (switch_view Hosts.pi_without_tmux pi_first_view)) =
    Some 1 /\
  filter (fun e => match e with
                   | Spawn _ _ | Terminate _ | Kill _ => true
                   | _ => false
                   end)
         (trace (snd (switch_view Hosts.pi_without_tmux pi_first_view))) =
    [Spawn 0 (Argv ["bash"; "/tmp/tmp0.sh"]);
     Spawn 1 (Argv ["bash"; "/tmp/tmp1.sh"])].
Proof. vm_compute. repeat split. Qed.

(* ------------------------------------------------------------------ *)
(** * Further properties of the code *)

(* ------------------------------------------------------------------ *)
(** ** The catalog and the registry *)

Lemma dict_get_filter (f : string * string -> bool) (d : dict) (k : string) :
  NoDup (map fst d) ->
  dict_get (filter f d) k =
  match dict_get d k with
  | Some v => if f (k, v) then Some v else None
  | None => None
  end.
Proof.
  induction d as [|[k' v] d IH]; simpl; intros Hnd; [reflexivity|].
  inversion Hnd as [|? ? Hnotin Hnd']; subst.
  destruct (String.eqb k k') eqn:E.
  - apply String.eqb_eq in E. subst k'.
    destruct (f (k, v)) eqn:Hf; simpl.
    + rewrite String.eqb_refl. reflexivity.
    + rewrite (IH Hnd').
      destruct (dict_get d k) as [v'|] eqn:Hg; [|reflexivity].
      exfalso. apply Hnotin. clear - Hg.
      induction d as [|[k2 v2] d IH]; simpl in *; [discriminate|].
      destruct (String.eqb k k2) eqn:E2.
      * apply String.eqb_eq in E2. left. symmetry. exact E2.
      * right. apply IH. exact Hg.
  - destruct (f (k', v)); simpl; [rewrite E|]; apply IH; exact Hnd'.
Qed.

Lemma possible_logs_keys_NoDup : NoDup (map fst possible_logs).
Proof.
  simpl. repeat (constructor; [simpl; intuition discriminate|]). constructor.
Qed.

(** X1: looking a name up in the detected catalog gives the path the
    table of known logs has for it, when that file can be read, and
    nothing otherwise; the catalog keeps the order of the table and has
    no name twice. *)
Theorem X1_catalog_lookup (h : Host) (log_name : string) :
  dict_get (detect_available_logs h) log_name =
    match dict_get possible_logs log_name with
    | Some path => if log_readable h path then Some path else None
    | None => None
    end /\
  subseq (detect_available_logs h) possible_logs /\
  NoDup (map fst (detect_available_logs h)).
Proof.
  split; [| split].
  - unfold detect_available_logs.
    rewrite dict_get_filter by apply possible_logs_keys_NoDup. reflexivity.
  - unfold detect_available_logs. generalize possible_logs.
    induction d as [|kv d IH]; simpl; [constructor|].
    destruct (log_readable h (snd kv)); constructor; exact IH.
  - unfold detect_available_logs.
    generalize possible_logs_keys_NoDup. generalize possible_logs.
    induction d as [|kv d IH]; simpl; intros Hnd; [constructor|].
    inversion Hnd as [|? ? Hnotin Hnd']; subst.
    destruct (log_readable h (snd kv)); simpl; [|apply IH; exact Hnd'].
    constructor; [|apply IH; exact Hnd'].
    intros Hin. apply Hnotin. apply in_map_iff in Hin.
    destruct Hin as (x & Hx & Hin). apply filter_In in Hin.
    apply in_map_iff. exists x. tauto.
Qed.

Lemma subseq_nil_l {A} (m : list A) : subseq [] m.
Proof. induction m; constructor; assumption. Qed.

Lemma subseq_refl {A} (l : list A) : subseq l l.
Proof. induction l; constructor; assumption. Qed.

Lemma subseq_app {A} (l1 m1 l2 m2 : list A) :
  subseq l1 m1 -> subseq l2 m2 -> subseq (l1 ++ l2) (m1 ++ m2).
Proof.
  intros H1 H2. induction H1; simpl; try constructor; assumption.
Qed.

Lemma subseq_In {A} (l m : list A) (x : A) : subseq l m -> In x l -> In x m.
Proof.
  intros H. induction H; simpl; intros Hin; auto.
  destruct Hin; auto.
Qed.

Lemma subseq_NoDup {A} (l m : list A) : subseq l m -> NoDup m -> NoDup l.
Proof.
  intros H. induction H; intros Hnd.
  - constructor.
  - inversion Hnd; auto.
  - inversion Hnd as [|? ? Hnotin Hnd']; subst. constructor; auto.
    intros Hin. apply Hnotin. eapply subseq_In; eauto.
Qed.

Lemma single_logs_subseq (paths : dict) (l : list string) :
  subseq (map name (flat_map (single_log_view paths) l))
         (map (fun n => PyStr.title (PyStr.replace "_" " " n) ++ " Log") l).
Proof.
  induction l as [|n l IH]; simpl; [constructor|].
  unfold single_log_view at 1. destruct (dict_get paths n); simpl.
  - apply subseq_take. exact IH.
  - apply subseq_skip. exact IH.
Qed.

Ltac subseq_tac :=
  simpl; repeat first [apply subseq_take | apply subseq_skip | apply subseq_nil].

Lemma build_views_names_subseq (t : Tools) (paths : dict) :
  subseq (map name (build_views t paths)) all_view_names.
Proof.
  unfold build_views. rewrite !map_app.
  change all_view_names with
    (["System Stats (htop)"; "System Stats (top)"] ++
     map (fun n => String.append (PyStr.title (PyStr.replace "_" " " n))
                                 " Log")
         priority_logs ++
     ["Main Site (zemia.uk) - All Logs"] ++
     ["Dev Site (dev.zemia.uk) - All Logs"] ++
     ["TMUX 4-Panel: Main + Dev Sites"; "TMUX Multi-Panel View (All Logs)"] ++
     ["Multitail Combined View"] ++ ["Pi System Monitor"])%list.
  repeat apply subseq_app.
  - destruct (htop t); [|destruct (top t)]; subseq_tac.
  - apply single_logs_subseq.
  - destruct (_ && _); subseq_tac.
  - destruct (_ && _); subseq_tac.
  - destruct (tmux t && _); [|apply subseq_nil_l].
    destruct (_ && _); subseq_tac.
  - destruct (_ && _); subseq_tac.
  - apply subseq_refl.
Qed.

Lemma all_view_names_NoDup : NoDup all_view_names.
Proof.
  unfold all_view_names.
  repeat (constructor; [simpl; intuition discriminate|]). constructor.
Qed.

(** X2: whatever tools were found and whatever the catalog holds, the
    names of the views come from one fixed list, in the order of that
    list, and no two views have the same name. *)
Theorem X2_view_names_ordered_and_distinct (t : Tools) (paths : dict) :
  subseq (map name (build_views t paths)) all_view_names /\
  NoDup (map name (build_views t paths)).
Proof.
  split; [apply build_views_names_subseq|].
  eapply subseq_NoDup; [apply build_views_names_subseq|].
  apply all_view_names_NoDup.
Qed.

Lemma single_logs_tool_free (paths : dict) (l : list string) :
  Forall (fun v => tool_free (view_command v) = true)
         (flat_map (single_log_view paths) l).
Proof.
  induction l as [|n l IH]; simpl; [constructor|].
  apply Forall_app. split; [|exact IH].
  unfold single_log_view. destruct (dict_get paths n); repeat constructor.
Qed.

(** X3: the probe of a tool answers [False] on every host, the tool
    installed or not, and changes nothing; so the constructor registers
    single-log views, site views and the Pi monitor only: never htop, top,
    a tmux view or the multitail view. *)
Theorem X3_no_tool_is_ever_found (h : Host) (w : World) (tool : string) :
  check_command h tool w = (Ok false, w) /\
  views (snd (init h w)) = build_views no_tools (detect_available_logs h) /\
  Forall (fun v => tool_free (view_command v) = true)
         (views (snd (init h w))).
Proof.
  split; [reflexivity|].
  destruct (init_ok h w) as (_ & Hv & _). split; [exact Hv|].
  rewrite Hv. unfold build_views, no_tools.
  cbn [htop top tmux multitail andb app].
  apply Forall_app; split; [apply single_logs_tool_free|].
  apply Forall_app; split; [destruct (_ && _); repeat constructor|].
  apply Forall_app; split; [destruct (_ && _); repeat constructor|].
  repeat constructor.
Qed.

(* ------------------------------------------------------------------ *)
(** ** The process supervisor *)

(** X4: [kill_current_process] never raises and always leaves the handle
    empty, whatever the host and whatever the child does; it leaves the
    view list, the cursor, the catalog, the tracked scripts and the files
    on disk alone; and with no handle it is a no-op. *)
Theorem X4_teardown_never_raises (h : Host) (w : World) :
  fst (kill_current_process h w) = Ok tt /\
  current_process (snd (kill_current_process h w)) = None /\
  views (snd (kill_current_process h w)) = views w /\
  current_view (snd (kill_current_process h w)) = current_view w /\
  log_paths (snd (kill_current_process h w)) = log_paths w /\
  temp_scripts (snd (kill_current_process h w)) = temp_scripts w /\
  files (snd (kill_current_process h w)) = files w /\
  (current_process w = None -> kill_current_process h w = (Ok tt, w)).
Proof.
  destruct (kill_current_process_clears h w) as [Hok Hnone].
  destruct (registry_kill_current_process h w) as [Hr _].
  apply registry_eq in Hr. destruct Hr as (Hv & Hc & Hl & _).
  destruct (tracked_kill_current_process h w) as [Ht _].
  unfold tracked in Ht. inversion Ht as [[Hts Hfs]].
  repeat split; try assumption.
  intros Hcp. rewrite kill_current_process_unfold, Hcp. reflexivity.
Qed.





(** X7: started in a world without a live child and with an empty handle,
    the command of any view, on any host, ends with at most one live
    child, and the handle names it: no [start_*] method leaves a child the
    handle does not know. *)
Theorem X7_a_view_starts_at_most_one_child (h : Host) (c : command)
        (w : World) :
  running w = [] -> current_process w = None ->
  exclusive (snd (run_command h c w)).
Proof. apply one_spawn_run_command. Qed.

Lemma X7_a_view_starts_at_most_one_child_witness :
  running boot = [] /\ current_process boot = None /\
  exclusive (snd (run_command Hosts.pi_without_tmux start_pi_monitor_cmd boot)).
Proof.
  assert (H1 : running boot = []) by reflexivity.
  assert (H2 : current_process boot = None) by reflexivity.
  split; [exact H1|]. split; [exact H2|].
  exact (X7_a_view_starts_at_most_one_child Hosts.pi_without_tmux
           start_pi_monitor_cmd boot H1 H2).
Defined.

Lemma teardown_keeps_cursor (h : Host) (w : World) :
  fst (kill_current_process h w) = Ok tt /\
  current_process (snd (kill_current_process h w)) = None /\
  views (snd (kill_current_process h w)) = views w /\
  current_view (snd (kill_current_process h w)) = current_view w.
Proof.
  destruct (kill_current_process_clears h w) as [Hok Hnone].
  destruct (registry_kill_current_process h w) as [Hr _].
  apply registry_eq in Hr. destruct Hr as (Hv & Hc & _).
  auto.
Qed.

(** X8: when the cursor points outside the view list (an empty list
    included), [switch_view] raises [IndexError] outside its [try] block:
    the old process has been torn down and the pause taken, no view
    command runs, and the cursor stays where it was. *)
Theorem X8_switch_view_out_of_range (h : Host) (w : World) :
  nth_error (views w) (current_view w) = None ->
  switch_view h w =
    (Raise IndexError, emit (Sleep (1 # 2)) (snd (kill_current_process h w))) /\
  current_view (snd (switch_view h w)) = current_view w /\
  current_process (snd (switch_view h w)) = None.
Proof.
  intros Hv.
  destruct (teardown_keeps_cursor h w) as (Hok & Hnone & Hvs & Hc).
  assert (Heq : switch_view h w =
    (Raise IndexError, emit (Sleep (1 # 2)) (snd (kill_current_process h w)))).
  { unfold switch_view. unfold bind at 1.
    destruct (kill_current_process h w) as [r w1]. simpl in *. subst r.
    unfold bind at 1. simpl. unfold bind at 1. simpl.
    rewrite Hvs, Hc, Hv. reflexivity. }
  rewrite Heq. simpl. auto.
Qed.

Lemma X8_switch_view_out_of_range_witness :
  nth_error (views boot) (current_view boot) = None /\
  fst (switch_view Hosts.zemia_site boot) = Raise IndexError.
Proof.
  assert (H1 : nth_error (views boot) (current_view boot) = None)
    by reflexivity.
  split; [exact H1|].
  rewrite (proj1 (X8_switch_view_out_of_range Hosts.zemia_site boot H1)).
  reflexivity.
Defined.

(* ------------------------------------------------------------------ *)
(** ** The input loops *)

(** X9: the touch loop reacts to presses only: any event that is not
    [EV_KEY]/[BTN_TOUCH] with value 1 (a release, a coordinate report)
    starts nothing and leaves the debounce timer alone, so the loop does
    on a run of events exactly what it does on its presses. *)
Theorem X9_touch_loop_sees_presses_only (h : Host)
        (events : list InputEvent) (last : Q) (w : World) :
  touch_loop h events last w =
  touch_loop h (filter is_touch_down events) last w.
Proof.
  revert last w. induction events as [|ev rest IH]; intros last w;
    [reflexivity|].
  simpl. unfold is_touch_down.
  destruct (Z.eqb (ev_type ev) 1 && Z.eqb (ev_code ev) 330) eqn:E1; simpl;
    [| apply IH].
  destruct (Z.eqb (ev_value ev) 1) eqn:E2; simpl; [| apply IH].
  rewrite E1, E2. simpl.
  destruct (Qgtb (ev_time ev - last) debounce_time); [| apply IH].
  unfold bind. simpl.
  destruct (switch_view h (print TouchDetected w)) as [[[]|e] w1];
    [apply IH | reflexivity].
Qed.

Lemma gate_admits_none (events : list InputEvent) (last : Q) :
  (forall ev, In ev events -> (ev_time ev - last <= 1)%Q) ->
  gate_admits events last = [].
Proof.
  induction events as [|ev rest IH]; intros Hw; simpl; [reflexivity|].
  assert (Hle : Qgtb (ev_time ev - last) debounce_time = false).
  { apply Qgtb_false. apply Hw. left. reflexivity. }
  rewrite Hle, andb_false_r. apply IH. intros ev' Hin. apply Hw.
  right. exact Hin.
Qed.

Lemma gate_admits_window (events : list InputEvent) (a : Q) : forall last,
  (forall ev, In ev events -> (a <= ev_time ev)%Q /\ (ev_time ev <= a + 1)%Q) ->
  List.length (gate_admits events last) <= 1.
Proof.
  induction events as [|ev rest IH]; intros last Hw; simpl; [lia|].
  destruct (is_touch_down ev && Qgtb (ev_time ev - last) debounce_time).
  - rewrite gate_admits_none; [simpl; lia|].
    intros ev' Hin.
    destruct (Hw ev (or_introl eq_refl)) as [H1 _].
    destruct (Hw ev' (or_intror Hin)) as [_ H2]. lra.
  - apply IH. intros ev' Hin. apply Hw. right. exact Hin.
Qed.

(** X10: a burst is one signal: when all the events of a run were read
    within one second of each other, the touch loop starts at most one
    view transition, whatever the events are and whenever the last
    admitted press was. *)
Theorem X10_a_burst_switches_at_most_once (h : Host) (w : World)
        (events : list InputEvent) (last a : Q) :
  cursor_ok w ->
  (forall ev, In ev events -> (a <= ev_time ev)%Q /\ (ev_time ev <= a + 1)%Q) ->
  started (snd (touch_loop h events last w)) <= started w + 1.
Proof.
  intros Hc Hw.
  destruct (touch_loop_started h events last w Hc) as (w' & -> & _ & _ & Hs).
  simpl. rewrite Hs. pose proof (gate_admits_window events a last Hw). lia.
Qed.

Lemma X10_a_burst_switches_at_most_once_witness :
  cursor_ok zemia_world /\
  started (snd (touch_loop Hosts.zemia_site
                  [touch_down 5; touch_down (11 # 2); touch_down 6] 0%Q
                  zemia_world)) <= started zemia_world + 1.
Proof.
  assert (Hc : cursor_ok zemia_world) by (unfold cursor_ok; vm_compute; lia).
  split; [exact Hc|].
  apply (X10_a_burst_switches_at_most_once Hosts.zemia_site zemia_world
           [touch_down 5; touch_down (11 # 2); touch_down 6] 0%Q 5%Q Hc).
  intros ev [<-|[<-|[<-|[]]]]; simpl; split; discriminate.
Defined.

(** X11: without a terminal on stdin the keyboard mode switches nothing:
    whatever keys arrive, the loop ends normally having only printed the
    exit line. *)
Theorem X11_keyboard_mode_needs_a_terminal (h : Host)
        (keys : list (option ascii)) (w : World) :
  stdin_is_tty h = false ->
  keyboard_loop h keys w = (Ok tt, print Exiting w).
Proof.
  intros Htty. destruct keys as [|key rest]; simpl; [reflexivity|].
  unfold bind, keyboard_round, try_except. rewrite Htty. reflexivity.
Qed.

Lemma X11_keyboard_mode_needs_a_terminal_witness :
  stdin_is_tty headless_host = false /\
  keyboard_loop headless_host [Some " "%char; Some " "%char] boot =
    (Ok tt, print Exiting boot).
Proof.
  assert (H1 : stdin_is_tty headless_host = false) by reflexivity.
  split; [exact H1|].
  exact (X11_keyboard_mode_needs_a_terminal headless_host
           [Some " "%char; Some " "%char] boot H1).
Defined.

Lemma keyboard_loop_stops_at (h : Host) (q : ascii) (post : list (option ascii)) :
  Ascii.eqb q " " = false -> Ascii.eqb (PyStr.to_lower q) "q" = true ->
  forall pre w,
    keyboard_loop h (pre ++ Some q :: post) w =
    keyboard_loop h (pre ++ [Some q]) w.
Proof.
  intros Hsp Hq. induction pre as [|key pre IH]; intros w; simpl.
  - unfold bind, keyboard_round, try_except.
    destruct (stdin_is_tty h); [|reflexivity].
    rewrite Hsp, Hq. reflexivity.
  - unfold bind.
    destruct (keyboard_round h key w) as [[[| |]|e] w1];
      [apply IH | reflexivity | reflexivity | reflexivity].
Qed.

(** X12: the quit key ends the keyboard loop: whatever comes after the
    first [q] or [Q] is never read, on any host and in any world. *)
Theorem X12_nothing_is_read_after_quit (h : Host)
        (pre post : list (option ascii)) (w : World) :
  keyboard_loop h (pre ++ Some "q"%char :: post) w =
    keyboard_loop h (pre ++ [Some "q"%char]) w /\
  keyboard_loop h (pre ++ Some "Q"%char :: post) w =
    keyboard_loop h (pre ++ [Some "Q"%char]) w.
Proof.
  split; apply keyboard_loop_stops_at; reflexivity.
Qed.

(* ------------------------------------------------------------------ *)
(** ** The whole program *)

Ltac frame_auto := repeat first [ solve [auto with keeps_db] | frame_step ].

Lemma farewells_print (r : report) :
  is_Goodbye r = false -> keeps farewells (modify (print r)).
Proof.
  intros Hr. apply keeps_modify. intros w. unfold farewells, print; simpl.
  rewrite filter_app. simpl. rewrite Hr. apply app_nil_r.
Qed.

#[export] Hint Resolve farewells_print : keeps_db.

Lemma farewells_kill_current_process (h : Host) :
  keeps farewells (kill_current_process h).
Proof. unfold kill_current_process. frame_auto. Qed.

Lemma farewells_start_single_log (h : Host) (path : string) :
  keeps farewells (start_single_log h path).
Proof. unfold start_single_log. frame_auto. Qed.

#[export] Hint Resolve farewells_kill_current_process
  farewells_start_single_log : keeps_db.

Lemma farewells_run_command (h : Host) (c : command) :
  keeps farewells (run_command h c).
Proof.
  destruct c; simpl.
  - unfold start_htop. frame_auto.
  - unfold start_top. frame_auto.
  - auto with keeps_db.
  - unfold start_site_logs. frame_auto.
  - unfold start_tmux_apache_view, apache_grid. frame_auto.
  - unfold start_tmux_multiview. frame_auto.
  - unfold start_multitail_combined. frame_auto.
  - unfold start_pi_monitor. frame_auto.
Qed.

#[export] Hint Resolve farewells_run_command : keeps_db.

Lemma farewells_switch_view (h : Host) : keeps farewells (switch_view h).
Proof. unfold switch_view, advance_cursor. frame_auto. Qed.

#[export] Hint Resolve farewells_switch_view : keeps_db.

Lemma farewells_touch_loop (h : Host) (events : list InputEvent) :
  forall last, keeps farewells (touch_loop h events last).
Proof.
  induction events as [|ev rest IH]; intros last; simpl; frame_auto.
Qed.

Lemma farewells_keyboard_loop (h : Host) (keys : list (option ascii)) :
  keeps farewells (keyboard_loop h keys).
Proof.
  induction keys as [|key rest IH]; simpl.
  - frame_auto.
  - apply keeps_bind; [unfold keyboard_round; frame_auto|].
    intros [| |]; frame_auto.
Qed.

Lemma farewells_init (h : Host) (w : World) :
  farewells (snd (init h w)) = farewells w.
Proof.
  cbv beta iota zeta delta
    [init bind modify ret raise get try_except build_available_views
     check_command subprocess_run andb is_some bare_except].
  cbn [log_paths set_log_paths].
  destruct (build_views _ _); reflexivity.
Qed.

Lemma try_finally_cleanup {A} (h : Host) (m : M A) (w : World) :
  fst (try_finally m (cleanup h) w) = Raise ValueError /\
  snd (try_finally m (cleanup h) w) = snd (cleanup h (snd (m w))).
Proof.
  unfold try_finally. destruct (m w) as [r w1]. simpl.
  pose proof (cleanup_eq h w1) as Hc. cbv zeta in Hc. rewrite Hc.
  split; reflexivity.
Qed.

Lemma cleanup_farewells (h : Host) (w : World) :
  farewells (snd (cleanup h w)) = farewells w.
Proof.
  rewrite cleanup_eq. cbv zeta. unfold farewells. simpl.
  set (w1 := snd (kill_current_process h (print CleaningUp w))).
  destruct (release_spec (temp_scripts w1) w1) as (_ & _ & _ & _ & _ & _ & _ & Hc).
  rewrite Hc.
  destruct (farewells_kill_current_process h (print CleaningUp w)) as [Hk _].
  fold w1 in Hk. unfold farewells in Hk. rewrite Hk. simpl.
  rewrite filter_app. simpl. apply app_nil_r.
Qed.


(* ------------------------------------------------------------------ *)
(** ** Temporary files *)

(** X14: after [cleanup] a temporary file is on disk exactly when it was
    on disk before and was not on the list of tracked scripts: every
    tracked file is deleted, no other file is touched, and a tracked file
    that is already gone does no harm. *)
Theorem X14_cleanup_deletes_exactly_the_tracked_files (h : Host) (w : World)
        (f : string) :
  In f (files (snd (cleanup h w))) <->
  In f (files w) /\ ~ In f (temp_scripts w).
Proof. apply cleanup_files. Qed.

(* ------------------------------------------------------------------ *)
(** ** What the views run *)

(** X15: a site view runs what the single-log view of the site's access
    log runs, on every host: the multitail branch is never taken, because
    the probe of multitail always fails.  When the catalog lacks one of
    the two logs of the site, the view prints that the logs were not
    found, starts nothing and returns normally. *)
Theorem X15_site_view_runs_the_access_log (h : Host) (site_prefix : string)
        (w : World) :
  start_site_logs h site_prefix w =
  match dict_get (log_paths w) (site_prefix ++ "_access"),
        dict_get (log_paths w) (site_prefix ++ "_error") with
  | Some (String a ar), Some (String e er) =>
      start_single_log h (String a ar) w
  | _, _ => (Ok tt, print (LogsNotFound site_prefix) w)
  end.
Proof.
  unfold start_site_logs, bind at 1. simpl.
  destruct (dict_get (log_paths w) (site_prefix ++ "_access")) as [[|a ar]|];
    try reflexivity.
  destruct (dict_get (log_paths w) (site_prefix ++ "_error")) as [[|e er]|];
    reflexivity.
Qed.

Lemma runs_emit (e : event) (w : World) :
  is_Run e = false -> multiplexer (emit e w) = multiplexer w.
Proof.
  intros He. unfold multiplexer, runs, emit; simpl.
  rewrite filter_app. simpl. rewrite He, app_nil_r. reflexivity.
Qed.

Lemma multiplexer_spawn (c : cmdline) : keeps multiplexer (spawn c).
Proof.
  intros w. split; [|discriminate]. unfold spawn; simpl.
  rewrite runs_emit by reflexivity. reflexivity.
Qed.

Lemma multiplexer_mktemp (sfx : string) : keeps multiplexer (mktemp sfx).
Proof.
  intros w. split; [|discriminate]. unfold mktemp; simpl.
  rewrite runs_emit by reflexivity. reflexivity.
Qed.

Lemma multiplexer_check_command (h : Host) (c : string) :
  keeps multiplexer (check_command h c).
Proof.
  intros w. rewrite check_command_False. split; [reflexivity|discriminate].
Qed.

#[export] Hint Resolve multiplexer_spawn multiplexer_mktemp
  multiplexer_check_command : keeps_db.

Lemma multiplexer_Popen (h : Host) (c : cmdline) :
  keeps multiplexer (Popen h c).
Proof. unfold Popen. keeps_tac. Qed.

Lemma multiplexer_create_formatter_script :
  keeps multiplexer create_formatter_script.
Proof. unfold create_formatter_script. keeps_tac. Qed.

#[export] Hint Resolve multiplexer_Popen multiplexer_create_formatter_script
  : keeps_db.

Lemma multiplexer_start_single_log (h : Host) (path : string) :
  keeps multiplexer (start_single_log h path).
Proof. unfold start_single_log, set_process. keeps_tac. Qed.

#[export] Hint Resolve multiplexer_start_single_log : keeps_db.

Lemma raises_at_once_keeps {T A} (proj : World -> T) (m : M A) :
  (forall w, m w = (Raise ValueError, w)) -> keeps proj m.
Proof.
  intros Hm w. rewrite Hm. split; [reflexivity|].
  intros e He. inversion He. reflexivity.
Qed.

(** X16: no view ever gets a program run through [subprocess.run], tmux
    included, and no view changes the table of tmux sessions: the two tmux
    views raise [ValueError] in their first statement, the other views
    only spawn their child. *)
Theorem X16_views_never_run_tmux (h : Host) (c : command) (w : World) :
  start_tmux_multiview h w = (Raise ValueError, w) /\
  sessions (snd (run_command h c w)) = sessions w /\
  runs (snd (run_command h c w)) = runs w.
Proof.
  split; [reflexivity|].
  assert (Hk : keeps multiplexer (run_command h c)).
  { destruct c; simpl.
    - unfold start_htop, set_process. keeps_tac.
    - unfold start_top, set_process. keeps_tac.
    - auto with keeps_db.
    - unfold start_site_logs, set_process. keeps_tac.
    - apply raises_at_once_keeps. reflexivity.
    - apply raises_at_once_keeps. reflexivity.
    - unfold start_multitail_combined, set_process. keeps_tac.
    - unfold start_pi_monitor, set_process. keeps_tac. }
  destruct (Hk w) as [Hm _]. unfold multiplexer in Hm.
  inversion Hm. auto.
Qed.

(** X17: a log whose path names an Apache or zemia access log is shown
    through a formatter script that is written, tracked and on disk
    before the child starts, and that start cannot fail: the pipeline goes
    through the shell.  Any other log is shown by [tail] directly: no file
    is written, and the start succeeds exactly when the program it calls
    ([sudo] where the log is readable, [tail] otherwise) is on the PATH. *)
Theorem X17_single_log_view (h : Host) (log_path : string) (w : World) :
  if uses_formatter log_path then
    fst (start_single_log h log_path w) = Ok tt /\
    temp_scripts (snd (start_single_log h log_path w)) =
      (temp_scripts w ++ [tmp_path w ".py"])%list /\
    files (snd (start_single_log h log_path w)) =
      (files w ++ [tmp_path w ".py"])%list /\
    current_process (snd (start_single_log h log_path w)) = Some (next_pid w) /\
    running (snd (start_single_log h log_path w)) =
      (running w ++ [next_pid w])%list
  else
    temp_scripts (snd (start_single_log h log_path w)) = temp_scripts w /\
    files (snd (start_single_log h log_path w)) = files w /\
    fst (start_single_log h log_path w) =
      (if installed h (if os_access_R h log_path then "sudo" else "tail")
       then Ok tt else Raise FileNotFoundError).
Proof.
  unfold start_single_log, uses_formatter.
  destruct (PyStr.contains "access" (PyStr.lower log_path) &&
            (PyStr.contains "apache" (PyStr.lower log_path) ||
             PyStr.contains "zemia" (PyStr.lower log_path))).
  - destruct (os_access_R h log_path); repeat split.
  - destruct (os_access_R h log_path); unfold bind, Popen, spawn, raise; simpl.
    + destruct (installed h "sudo"); repeat split.
    + destruct (installed h "tail"); repeat split.
Qed.

(* ------------------------------------------------------------------ *)
(** ** The legacy methods *)

Lemma prefix_development_dev (s : string) :
  String.prefix "development" s = true -> String.prefix "dev" s = true.
Proof.
  destruct s as [|c0 [|c1 [|c2 s]]]; cbn [String.prefix];
    repeat match goal with
           | |- context [ascii_dec ?a ?b] => destruct (ascii_dec a b)
           end;
    intros H; first [reflexivity | discriminate H | destruct s; reflexivity].
Qed.

Lemma contains_development_dev (s : string) :
  PyStr.contains "dev" s = false -> PyStr.contains "development" s = false.
Proof.
  induction s as [|c s IH]; intros H.
  - reflexivity.
  - change (String.prefix "dev" (String c s) || PyStr.contains "dev" s = false)
      in H.
    change (String.prefix "development" (String c s) ||
            PyStr.contains "development" s = false).
    apply orb_false_iff in H. destruct H as [H1 H2].
    rewrite (IH H2), orb_false_r.
    destruct (String.prefix "development" (String c s)) eqn:E; [|reflexivity].
    rewrite (prefix_development_dev _ E) in H1. discriminate.
Qed.

Lemma start_first_dev_find (h : Host) (items : dict) (w : World) :
  start_first_dev h items w =
  match find (fun kv => PyStr.contains "dev" (fst kv)) items with
  | Some kv => start_single_log h (snd kv) w
  | None => (Ok tt, w)
  end.
Proof.
  induction items as [|[n p] rest IH]; simpl; [reflexivity|].
  destruct (PyStr.contains "dev" n) eqn:E; simpl; [reflexivity|].
  rewrite (contains_development_dev n E). apply IH.
Qed.

(** X18: [start_dev_access_only] shows the first log of the catalog, in
    catalog order, whose name contains "dev", and does nothing when there
    is none; its second test, for "development", never decides. *)
Theorem X18_dev_view_takes_the_first_dev_log (h : Host) (w : World) :
  start_dev_access_only h w =
  match find (fun kv => PyStr.contains "dev" (fst kv)) (log_paths w) with
  | Some kv => start_single_log h (snd kv) w
  | None => (Ok tt, w)
  end.
Proof.
  unfold start_dev_access_only, bind. simpl. apply start_first_dev_find.
Qed.

(* ------------------------------------------------------------------ *)
(** ** Looking for the touch screen *)

(** X19: what [find_touchscreen] returns is one of the devices and reports
    absolute positions; it returns nothing exactly when evdev is missing
    or no device reports absolute positions. *)
Theorem X19_touchscreen_reports_positions (available : bool)
        (devices : list InputDevice) :
  (forall device,
      find_touchscreen available devices = Some device ->
      In device devices /\ has_EV_ABS device = true) /\
  (find_touchscreen available devices = None <->
   available = false \/
   forall device, In device devices -> has_EV_ABS device = false).
Proof.
  unfold find_touchscreen. destruct available; simpl.
  - split.
    + intros device.
      destruct (find _ devices) as [d|] eqn:Hk.
      * intros H; inversion H; subst. apply find_some in Hk.
        destruct Hk as [Hin Hb]. apply andb_true_iff in Hb. tauto.
      * intros H. apply find_some in H. exact H.
    + destruct (find _ devices) as [d|] eqn:Hk.
      * split; [discriminate|]. intros [H|H]; [discriminate|].
        apply find_some in Hk. destruct Hk as [Hin Hb].
        apply andb_true_iff in Hb. rewrite (H d Hin) in Hb.
        destruct Hb; discriminate.
      * split.
        -- intros H. right. intros device Hin.
           exact (find_none _ _ H device Hin).
        -- intros [H|H]; [discriminate|].
           destruct (find has_EV_ABS devices) as [d|] eqn:Hf; [|reflexivity].
           apply find_some in Hf. destruct Hf as [Hin Hb].
           rewrite (H d Hin) in Hb. discriminate.
  - split; [intros device H; discriminate|]. split; auto.
Qed.

Lemma find_app_first {A} (f : A -> bool) (pre rest : list A) (x : A) :
  (forall y, In y pre -> f y = false) -> f x = true ->
  find f (pre ++ x :: rest) = Some x.
Proof.
  intros Hpre Hx. induction pre as [|y pre IH]; simpl.
  - rewrite Hx. reflexivity.
  - rewrite (Hpre y (or_introl eq_refl)). apply IH.
    intros z Hz. apply Hpre. right. exact Hz.
Qed.

(** X20: the first device, in the order evdev lists them, whose name
    contains one of the keywords and which reports absolute positions is
    the one chosen, whatever comes before it without these two marks and
    whatever comes after it: the order of the keywords plays no part. *)
Theorem X20_first_named_touchscreen_wins (before after : list InputDevice)
        (device : InputDevice) :
  named_like_touchscreen device = true ->
  has_EV_ABS device = true ->
  (forall d, In d before ->
             named_like_touchscreen d && has_EV_ABS d = false) ->
  find_touchscreen true (before ++ device :: after) = Some device.
Proof.
  intros Hn Ha Hb. unfold find_touchscreen. simpl.
  rewrite (find_app_first _ before after device Hb); [reflexivity|].
  rewrite Hn, Ha. reflexivity.
Qed.

Lemma X20_first_named_touchscreen_wins_witness :
  named_like_touchscreen wacom_tablet = true /\
  has_EV_ABS wacom_tablet = true /\
  find_touchscreen true [usb_mouse; wacom_tablet; pi_touchscreen] =
    Some wacom_tablet.
Proof.
  assert (H1 : named_like_touchscreen wacom_tablet = true) by reflexivity.
  assert (H2 : has_EV_ABS wacom_tablet = true) by reflexivity.
  split; [exact H1|]. split; [exact H2|].
  apply (X20_first_named_touchscreen_wins [usb_mouse] [pi_touchscreen]
           wacom_tablet H1 H2).
  intros d [<-|[]]. reflexivity.
Defined.

(* ------------------------------------------------------------------ *)
(** ** The compact log line *)

Lemma str_length_app (a b : string) :
  String.length (a ++ b) = String.length a + String.length b.
Proof. induction a as [|c a IH]; simpl; [reflexivity | rewrite IH; reflexivity]. Qed.

Lemma str_length_of_chars (l : list ascii) :
  String.length (string_of_list_ascii l) = List.length l.
Proof. induction l as [|c l IH]; simpl; [reflexivity | rewrite IH; reflexivity]. Qed.

Lemma str_length_substring0 (n : nat) : forall s,
  String.length (substring 0 n s) = Nat.min n (String.length s).
Proof.
  induction n as [|n IH]; intros [|c s]; simpl; try reflexivity.
  rewrite IH. reflexivity.
Qed.

Lemma str_length_ljust (width : nat) (s : string) :
  String.length (ljust width s) = Nat.max width (String.length s).
Proof.
  unfold ljust. rewrite str_length_app, str_length_of_chars, repeat_length.
  lia.
Qed.

Lemma time_at_needs_colon (s : string) :
  match s with
  | String _ (String _ (String c1 _)) => Ascii.eqb c1 ":" = false
  | _ => True
  end ->
  time_at s = None.
Proof.
  destruct s as [|a [|b [|c1 [|c [|d [|c2 [|e [|f s]]]]]]]]; try reflexivity.
  intros H. unfold time_at. rewrite H, andb_false_r. reflexivity.
Qed.

Lemma isdigit_not_colon (c : ascii) :
  Re.isdigit c = true -> Ascii.eqb c ":" = false.
Proof.
  intros H. destruct (Ascii.eqb c ":") eqn:E; [|reflexivity].
  apply Ascii.eqb_eq in E. subst c. discriminate H.
Qed.

(** X21: for a time stamp in the Apache layout, a colon-free date ending
    in the year, then [:HH:MM:SS], the time column shows the last two
    digits of the year and the hour ([25:22] for [10/Aug/2025:22:16:22]),
    not the hour and the minute: the search takes the leftmost match, and
    that starts inside the year. *)
Theorem X21_time_column_shows_year_and_hour (date rest : string)
        (y3 y4 h1 h2 m1 m2 : ascii) :
  colon_free date = true ->
  Re.isdigit y3 = true -> Re.isdigit y4 = true ->
  Re.isdigit h1 = true -> Re.isdigit h2 = true ->
  Re.isdigit m1 = true -> Re.isdigit m2 = true ->
  time_str_of
    (date ++ String y3 (String y4 (String ":" (String h1 (String h2
       (String ":" (String m1 (String m2 rest)))))))) =
  String y3 (String y4 (String ":" (String h1 (String h2 EmptyString)))).
Proof.
  intros Hd Hy3 Hy4 Hh1 Hh2 Hm1 Hm2. unfold time_str_of.
  assert (Hs : search_time
            (date ++ String y3 (String y4 (String ":" (String h1 (String h2
               (String ":" (String m1 (String m2 rest)))))))) =
          Some (String y3 (String y4 EmptyString),
                String h1 (String h2 EmptyString))).
  { induction date as [|c date IH].
    - simpl. rewrite Hy3, Hy4, Hh1, Hh2, Hm1, Hm2. reflexivity.
    - unfold colon_free in Hd. simpl in Hd. apply andb_true_iff in Hd.
      destruct Hd as [_ Hd].
      change (String c date ++ ?x) with (String c (date ++ x)).
      cbn [search_time]. rewrite time_at_needs_colon.
      + apply IH. exact Hd.
      + destruct date as [|a [|b date]]; simpl.
        * apply isdigit_not_colon. exact Hy4.
        * apply isdigit_not_colon. exact Hy3.
        * simpl in Hd. apply andb_true_iff in Hd. destruct Hd as [_ Hd].
          apply andb_true_iff in Hd. destruct Hd as [Hb _].
          apply negb_true_iff in Hb. exact Hb. }
  rewrite Hs. reflexivity.
Qed.

Lemma X21_time_column_shows_year_and_hour_witness :
  colon_free "10/Aug/20" = true /\
  time_str_of "10/Aug/2025:22:16:22 +0100" = "25:22".
Proof.
  assert (H : colon_free "10/Aug/20" = true) by reflexivity.
  split; [exact H|].
  exact (X21_time_column_shows_year_and_hour "10/Aug/20" ":22 +0100"
           "2" "5" "2" "2" "1" "6" H eq_refl eq_refl eq_refl eq_refl
           eq_refl eq_refl).
Defined.

(** X22: in the line of the viewer the path column is exactly 25
    characters wide whatever the path: a longer path is cut to its first
    22 characters and three dots, a shorter one is padded.  In the line of
    the formatter script the limit is 50 while the padding is still 25, so
    its column is as wide as the path, up to 50 characters. *)
Theorem X22_path_column_width (path : string) :
  String.length (ljust 25 (cut_path 25 22 path)) = 25 /\
  String.length (ljust 25 (cut_path 50 47 path)) =
    Nat.max 25 (Nat.min (String.length path) 50).
Proof.
  rewrite !str_length_ljust. unfold cut_path.
  destruct (Nat.ltb_spec 25 (String.length path));
    destruct (Nat.ltb_spec 50 (String.length path));
    rewrite ?str_length_app, ?str_length_substring0;
    cbn [String.length]; lia.
Qed.

Lemma str_length_replace_from (old : string) (s : string) : forall skip,
  String.length (replace_from old "" skip s) <= String.length s.
Proof.
  induction s as [|c s IH]; intros skip; cbn [replace_from String.length];
    [lia|].
  destruct skip as [|k].
  - destruct (String.prefix old (String c s)); cbn [append String.length].
    + specialize (IH (String.length old - 1)). lia.
    + specialize (IH 0). lia.
  - specialize (IH k). lia.
Qed.

(** X23: the user-agent column never has more than 33 characters,
    however long the user agent of the request is. *)
Theorem X23_user_agent_column_is_bounded (user_agent : string) :
  String.length (ua_short_of user_agent) <= 33.
Proof.
  unfold ua_short_of, str_replace.
  eapply Nat.le_trans; [apply str_length_replace_from|].
  eapply Nat.le_trans; [apply str_length_replace_from|].
  destruct (Nat.ltb 30 (String.length user_agent)) eqn:E.
  - rewrite str_length_app, str_length_substring0. cbn [String.length]. lia.
  - apply Nat.ltb_ge in E. lia.
Qed.

Lemma short_decimals :
  forallb (fun k => Nat.leb (String.length (PyStr.str k)) 4)
          (seq 0 (100 * 100))
  = true.
Proof. vm_compute. reflexivity. Qed.

Lemma str_Z_short (n : Z) :
  (0 <= n < 10000)%Z -> String.length (str_Z n) <= 4.
Proof.
  intros Hn. unfold str_Z.
  destruct (Z.ltb n 0) eqn:E; [apply Z.ltb_lt in E; lia|].
  pose proof short_decimals as H. rewrite forallb_forall in H.
  apply Nat.leb_le. apply H. apply in_seq. lia.
Qed.

(** X24: for every size from 0 to just under 10000 MiB the size column is
    exactly five characters wide: the number printed before the unit
    letter has at most four digits, in bytes below 1 KiB, in KiB below
    1 MiB, in MiB above. *)
Theorem X24_size_column_width (size_int : Z) :
  (0 <= size_int < 10000 * (1024 * 1024))%Z ->
  String.length (ljust 5 (size_label size_int)) = 5.
Proof.
  intros Hn. rewrite str_length_ljust. unfold size_label.
  destruct (Z.ltb size_int 1024) eqn:E1.
  - apply Z.ltb_lt in E1. rewrite str_length_app. cbn [String.length].
    pose proof (str_Z_short size_int). lia.
  - apply Z.ltb_ge in E1.
    destruct (Z.ltb size_int (1024 * 1024)) eqn:E2.
    + apply Z.ltb_lt in E2. rewrite str_length_app. cbn [String.length].
      assert (0 <= size_int / 1024 < 10000)%Z.
      { split; [apply Z.div_pos; lia|].
        apply Z.div_lt_upper_bound; lia. }
      pose proof (str_Z_short (size_int / 1024)). lia.
    + apply Z.ltb_ge in E2. rewrite str_length_app. cbn [String.length].
      assert (0 <= size_int / (1024 * 1024) < 10000)%Z.
      { split; [apply Z.div_pos; lia|].
        apply Z.div_lt_upper_bound; lia. }
      pose proof (str_Z_short (size_int / (1024 * 1024))). lia.
Qed.

Lemma X24_size_column_width_witness :
  (0 <= 5000000 < 10000 * (1024 * 1024))%Z /\
  String.length (ljust 5 (size_label 5000000)) = 5.
Proof.
  assert (H : (0 <= 5000000 < 10000 * (1024 * 1024))%Z) by lia.
  split; [exact H | exact (X24_size_column_width 5000000 H)].
Defined.

(* ------------------------------------------------------------------ *)
(** ** What a match of the log pattern guarantees *)

Lemma str_app_nil_r (s : string) : s ++ "" = s.
Proof. induction s as [|c s IH]; simpl; [reflexivity | rewrite IH; reflexivity]. Qed.

Lemma str_app_assoc (a b c : string) : (a ++ b) ++ c = a ++ (b ++ c).
Proof. induction a as [|x a IH]; simpl; [reflexivity | rewrite IH; reflexivity]. Qed.

Lemma chars_app (a b : string) :
  list_ascii_of_string (a ++ b) =
  (list_ascii_of_string a ++ list_ascii_of_string b)%list.
Proof. induction a as [|x a IH]; simpl; [reflexivity | rewrite IH; reflexivity]. Qed.

Lemma greedy_inv (cls : ascii -> bool) (least : nat)
      (rest : string -> string -> option (list string)) :
  forall s taken count groups,
    Re.greedy cls least rest s taken count = Some groups ->
    exists more s',
      s = more ++ s' /\
      forallb cls (list_ascii_of_string more) = true /\
      least <= count + String.length more /\
      rest s' (taken ++ more) = Some groups.
Proof.
  assert (Hstop : forall s taken count groups,
             (if Nat.leb least count then rest s taken else None) = Some groups ->
             exists more s',
               s = more ++ s' /\
               forallb cls (list_ascii_of_string more) = true /\
               least <= count + String.length more /\
               rest s' (taken ++ more) = Some groups).
  { intros s taken count groups H.
    destruct (Nat.leb_spec least count); [|discriminate].
    exists EmptyString, s. rewrite str_app_nil_r. simpl.
    repeat split; [lia | exact H]. }
  induction s as [|x s IH]; intros taken count groups H;
    cbn [Re.greedy] in H.
  - apply Hstop. exact H.
  - destruct (cls x) eqn:Hx; [|apply Hstop; exact H].
    destruct (Re.greedy cls least rest s (taken ++ String x EmptyString)
                (S count)) as [g|] eqn:Hg; [|apply Hstop; exact H].
    inversion H; subst g.
    destruct (IH _ _ _ Hg) as (more & s' & Hs & Hall & Hlen & Hrest).
    exists (String x more), s'. simpl. rewrite Hx, Hall.
    rewrite str_app_assoc in Hrest. simpl in Hrest.
    repeat split; [congruence | lia | exact Hrest].
Qed.

(** A match captures, in order, one text per capturing class, each made
    of characters of its class and no longer than the input; and every
    literal character of the pattern occurs in the input. *)
Lemma match_items_inv (items : list Re.item) : forall s groups r,
  Re.match_items items s groups = Some r ->
  (exists caps,
      r = (groups ++ caps)%list /\
      Forall2 group_ok (filter capturing items) caps /\
      Forall (fun t => String.length t <= String.length s) caps) /\
  (forall c, In (Re.Lit c) items -> In c (list_ascii_of_string s)).
Proof.
  induction items as [|it items IH]; intros s groups r H.
  - simpl in H. inversion H; subst. split.
    + exists []. rewrite app_nil_r. repeat split; constructor.
    + intros c [].
  - destruct it as [c0|cls least capture].
    + cbn [Re.match_items] in H. destruct s as [|x s]; [discriminate|].
      destruct (Ascii.eqb x c0) eqn:Ex; [|discriminate].
      apply Ascii.eqb_eq in Ex. subst x.
      destruct (IH _ _ _ H) as [(caps & Hr & Hf & Hl) Hlit]. split.
      * exists caps. simpl. repeat split; try assumption.
        eapply Forall_impl; [|exact Hl]. simpl. intros; lia.
      * intros c [Hc|Hc]; simpl.
        -- inversion Hc. left. reflexivity.
        -- right. apply Hlit. exact Hc.
    + cbn [Re.match_items] in H.
      apply greedy_inv in H.
      destruct H as (more & s' & Hs & Hall & Hlen & Hrest).
      simpl in Hrest, Hlen.
      destruct (IH _ _ _ Hrest) as [(caps & Hr & Hf & Hl) Hlit].
      assert (Hl' : Forall (fun t => String.length t <= String.length s) caps).
      { eapply Forall_impl; [|exact Hl]. simpl. intros t Ht.
        rewrite Hs, str_length_app. lia. }
      split.
      * destruct capture; simpl.
        -- exists (more :: caps). rewrite Hr, <- app_assoc. simpl.
           repeat split.
           ++ constructor; [|exact Hf]. simpl. split; [exact Hall | exact Hlen].
           ++ constructor; [|exact Hl'].
              rewrite Hs, str_length_app. lia.
        -- exists caps. repeat split; assumption.
      * intros c [Hc|Hc]; [discriminate|].
        rewrite Hs, chars_app. apply in_or_app. right. apply Hlit. exact Hc.
Qed.

Lemma In_lstrip (c : ascii) (s : string) :
  In c (list_ascii_of_string (lstrip s)) -> In c (list_ascii_of_string s).
Proof.
  induction s as [|x s IH]; simpl; [auto|].
  destruct (Re.isspace x); simpl; auto.
Qed.

Lemma In_rstrip (c : ascii) (s : string) :
  In c (list_ascii_of_string (rstrip s)) -> In c (list_ascii_of_string s).
Proof.
  induction s as [|x s IH]; simpl; [auto|].
  destruct (rstrip s) as [|y r] eqn:E.
  - destruct (Re.isspace x); simpl; [tauto|]. intros [H|[]]. left. exact H.
  - simpl. intros [H|H]; [left; exact H | right; apply IH; exact H].
Qed.

Lemma length_lstrip (s : string) : String.length (lstrip s) <= String.length s.
Proof.
  induction s as [|x s IH]; simpl; [lia|].
  destruct (Re.isspace x); simpl; lia.
Qed.

Lemma length_rstrip (s : string) : String.length (rstrip s) <= String.length s.
Proof.
  induction s as [|x s IH]; simpl; [lia|].
  destruct (rstrip s) as [|y r] eqn:E.
  - destruct (Re.isspace x); simpl; lia.
  - simpl in *. lia.
Qed.

Lemma pattern_has_quote : In (Re.Lit dq) log_pattern.
Proof.
  unfold log_pattern, Re.lits, dq. simpl.
  repeat first [left; reflexivity | right].
Qed.

(** X25: a line without a double quote is not a log line: both formatters
    return it as it is, whatever else it contains and whatever the digit
    limit. *)
Theorem X25_lines_without_quotes_pass_through (path_limit path_keep : nat)
        (max_str_digits : nat) (line : string) :
  ~ In dq (list_ascii_of_string line) ->
  format_line path_limit path_keep max_str_digits line = Ok line.
Proof.
  intros Hq. unfold format_line.
  destruct (Re.match_items log_pattern (strip line) []) as [r|] eqn:Hm;
    [|reflexivity].
  exfalso. apply Hq.
  destruct (match_items_inv _ _ _ _ Hm) as [_ Hlit].
  apply In_lstrip, In_rstrip. apply Hlit. apply pattern_has_quote.
Qed.

Lemma X25_lines_without_quotes_pass_through_witness :
  ~ In dq (list_ascii_of_string "kernel: usb 1-1: new device") /\
  format_compact_apache_log 4300 "kernel: usb 1-1: new device" =
    Ok "kernel: usb 1-1: new device".
Proof.
  assert (H : ~ In dq (list_ascii_of_string "kernel: usb 1-1: new device")).
  { simpl. intuition discriminate. }
  split; [exact H|].
  exact (X25_lines_without_quotes_pass_through 25 22 4300 _ H).
Defined.

Lemma isdigit_not_space (c : ascii) :
  Re.isdigit c = true -> Re.isspace c = false.
Proof.
  unfold Re.isdigit, Re.isspace. generalize (nat_of_ascii c). intros n H.
  apply andb_true_iff in H. destruct H as [H1 H2].
  apply Nat.leb_le in H1. apply Nat.leb_le in H2.
  apply orb_false_iff. split; apply andb_false_iff.
  - right. apply Nat.leb_gt. lia.
  - right. apply Nat.leb_gt. lia.
Qed.

Lemma isdigit_differs (c x : ascii) :
  Re.isdigit c = true -> Re.isdigit x = false -> Ascii.eqb c x = false.
Proof.
  intros Hc Hx. destruct (Ascii.eqb c x) eqn:E; [|reflexivity].
  apply Ascii.eqb_eq in E. subst x. congruence.
Qed.

Lemma rstrip_digits (s : string) :
  forallb Re.isdigit (list_ascii_of_string s) = true -> rstrip s = s.
Proof.
  induction s as [|x s IH]; simpl; [reflexivity|].
  intros H. apply andb_true_iff in H. destruct H as [Hx Hs].
  rewrite (IH Hs). destruct s; [|reflexivity].
  rewrite (isdigit_not_space x Hx). reflexivity.
Qed.

Lemma strip_digits (s : string) :
  forallb Re.isdigit (list_ascii_of_string s) = true -> strip s = s.
Proof.
  intros H. unfold strip.
  assert (Hl : lstrip s = s).
  { destruct s as [|x s]; [reflexivity|]. simpl in *.
    apply andb_true_iff in H. destruct H as [Hx _].
    rewrite (isdigit_not_space x Hx). reflexivity. }
  rewrite Hl. apply rstrip_digits. exact H.
Qed.

Lemma int_digits_of_digits (s : string) : forall value after count,
  forallb Re.isdigit (list_ascii_of_string s) = true ->
  s <> EmptyString \/ after = false ->
  exists v, int_digits s value after count = Some (v, count + String.length s).
Proof.
  induction s as [|x s IH]; intros value after count H Hne.
  - destruct Hne as [Hne|Haf]; [congruence|]. subst after.
    exists value. simpl. rewrite Nat.add_0_r. reflexivity.
  - simpl in H. apply andb_true_iff in H. destruct H as [Hx Hs].
    cbn [int_digits]. rewrite Hx.
    destruct (IH (10 * value + Z.of_nat (nat_of_ascii x - 48))%Z false
                 (S count) Hs (or_intror eq_refl)) as [v Hv].
    exists v. rewrite Hv. f_equal. f_equal. simpl. lia.
Qed.

Lemma py_int_of_digits (max_str_digits : nat) (s : string) :
  forallb Re.isdigit (list_ascii_of_string s) = true ->
  1 <= String.length s ->
  max_str_digits = 0 \/ String.length s <= max_str_digits ->
  exists n, py_int max_str_digits s = Some n.
Proof.
  intros Hd Hlen Hlim. unfold py_int. rewrite (strip_digits s Hd).
  destruct s as [|c r]; [simpl in Hlen; lia|].
  assert (Hc : Re.isdigit c = true).
  { simpl in Hd. apply andb_true_iff in Hd. tauto. }
  rewrite (isdigit_differs c "-" Hc eq_refl).
  rewrite (isdigit_differs c "+" Hc eq_refl).
  cbn [fst snd].
  destruct (int_digits_of_digits (String c r) 0%Z true 0 Hd)
    as [v Hv]; [left; discriminate|].
  rewrite Hv. cbn [Nat.add].
  assert (Hchk : Nat.ltb 0 max_str_digits &&
                 Nat.ltb max_str_digits (String.length (String c r)) = false).
  { destruct Hlim as [->|Hle]; [reflexivity|].
    apply andb_false_iff. right. apply Nat.ltb_ge. exact Hle. }
  rewrite Hchk. eexists. reflexivity.
Qed.

Lemma log_pattern_groups (s : string) (r : list string) :
  Re.match_items log_pattern s [] = Some r ->
  exists ip timestamp method path protocol status size user_agent,
    r = [ip; timestamp; method; path; protocol; status; size; user_agent] /\
    forallb Re.nonspace (list_ascii_of_string ip) = true /\
    forallb Re.isdigit (list_ascii_of_string status) = true /\
    1 <= String.length status <= String.length s /\
    forallb Re.nonspace (list_ascii_of_string size) = true /\
    1 <= String.length size /\
    ~ In dq (list_ascii_of_string path) /\
    ~ In dq (list_ascii_of_string user_agent).
Proof.
  intros H. destruct (match_items_inv _ _ _ _ H) as [(caps & Hr & Hf & Hl) _].
  simpl in Hr. subst r.
  change (filter capturing log_pattern) with
    [ Re.Rep Re.nonspace 1 true; Re.Rep (Re.other_than "]") 1 true;
      Re.Rep Re.nonspace 1 true;
      Re.Rep (Re.other_than (ascii_of_nat 34)) 0 true;
      Re.Rep (Re.other_than (ascii_of_nat 34)) 0 true;
      Re.Rep Re.isdigit 1 true; Re.Rep Re.nonspace 1 true;
      Re.Rep (Re.other_than (ascii_of_nat 34)) 0 true ] in Hf.
  repeat match goal with
         | Hf : Forall2 _ (_ :: _) _ |- _ =>
             inversion Hf; subst; clear Hf
         | Hf : Forall2 _ [] _ |- _ => inversion Hf; subst; clear Hf
         end.
  repeat match goal with
         | Hl : Forall _ (_ :: _) |- _ => inversion Hl; subst; clear Hl
         end.
  repeat match goal with
         | Hg : group_ok _ _ |- _ => simpl in Hg; destruct Hg
         end.
  assert (Hnq : forall t,
             forallb (Re.other_than (ascii_of_nat 34)) (list_ascii_of_string t)
             = true -> ~ In dq (list_ascii_of_string t)).
  { intros t Ht Hin. rewrite forallb_forall in Ht. specialize (Ht _ Hin).
    unfold Re.other_than, dq in Ht. rewrite Ascii.eqb_refl in Ht.
    discriminate. }
  do 8 eexists. split; [reflexivity|].
  repeat split; auto.
Qed.

(** X26: the formatter raises only over the digit limit of [int]: with
    the limit switched off, or on a line no longer than the limit, it
    always returns a line, the input itself when the pattern does not
    match.  The size can never make it fail; only the status could. *)
Theorem X26_formatter_returns_a_line (path_limit path_keep : nat)
        (max_str_digits : nat) (line : string) :
  max_str_digits = 0 \/ String.length line <= max_str_digits ->
  exists out, format_line path_limit path_keep max_str_digits line = Ok out.
Proof.
  intros Hlim. unfold format_line.
  destruct (Re.match_items log_pattern (strip line) []) as [r|] eqn:Hm;
    [|eexists; reflexivity].
  destruct (log_pattern_groups _ _ Hm)
    as (ip & ts & method & path & proto & status & size & ua &
        -> & _ & Hd & [Hlen1 Hlen2] & _).
  assert (Hstrip : String.length (strip line) <= String.length line).
  { unfold strip. pose proof (length_rstrip (lstrip line)).
    pose proof (length_lstrip line). lia. }
  destruct (py_int_of_digits max_str_digits status Hd Hlen1) as [n Hn].
  { destruct Hlim as [H0|Hle]; [left; exact H0 | right; lia]. }
  rewrite Hn. eexists. reflexivity.
Qed.

Lemma X26_formatter_returns_a_line_witness :
  String.length sample_line <= 4300 /\
  exists out, format_compact_apache_log 4300 sample_line = Ok out.
Proof.
  assert (H : String.length sample_line <= 4300).
  { apply Nat.leb_le. vm_compute. reflexivity. }
  split; [exact H|].
  exact (X26_formatter_returns_a_line 25 22 4300 sample_line (or_intror H)).
Defined.

(** X27: the function of the viewer and the function of the formatter
    script give the same result on every line whose request path has at
    most 25 characters, and on every line the pattern does not match:
    they differ only in where they cut a longer path. *)
Theorem X27_viewer_and_script_agree_on_short_paths (max_str_digits : nat)
        (line : string) :
  match Re.match_items log_pattern (strip line) [] with
  | Some groups => String.length (nth 3 groups EmptyString) <= 25
  | None => True
  end ->
  format_compact_apache_log max_str_digits line =
  format_compact_log max_str_digits line.
Proof.
  unfold format_compact_apache_log, format_compact_log, format_line.
  destruct (Re.match_items log_pattern (strip line) []) as [r|] eqn:Hm;
    [|reflexivity].
  destruct (log_pattern_groups _ _ Hm)
    as (ip & ts & method & path & proto & status & size & ua & -> & _).
  cbn [nth]. intros Hp. unfold cut_path.
  destruct (Nat.ltb_spec 25 (String.length path)); [lia|].
  destruct (Nat.ltb_spec 50 (String.length path)); [lia|].
  reflexivity.
Qed.

Lemma X27_viewer_and_script_agree_on_short_paths_witness :
  format_compact_apache_log 4300 sample_line =
  format_compact_log 4300 sample_line.
Proof.
  apply (X27_viewer_and_script_agree_on_short_paths 4300 sample_line).
  vm_compute. lia.
Defined.

Lemma gate_admits_spaced (events : list InputEvent) : forall last,
  spaced_presses last events = true ->
  gate_admits events last = map ev_time events.
Proof.
  induction events as [|ev rest IH]; intros last H; simpl; [reflexivity|].
  simpl in H. apply andb_true_iff in H. destruct H as [H1 H2].
  rewrite H1. f_equal. apply IH. exact H2.
Qed.

(** X28: no press is lost when the presses are spaced: if every event of
    a run is a press read more than one second after the one before it
    (the first one more than a second after the last admitted press), the
    touch loop starts exactly one view transition per press. *)
Theorem X28_spaced_presses_all_switch (h : Host) (w : World)
        (events : list InputEvent) (last : Q) :
  cursor_ok w ->
  spaced_presses last events = true ->
  started (snd (touch_loop h events last w)) =
  started w + List.length events.
Proof.
  intros Hc Hs.
  destruct (touch_loop_started h events last w Hc) as (w' & -> & _ & _ & Hst).
  simpl. rewrite Hst, (gate_admits_spaced events last Hs), length_map.
  reflexivity.
Qed.

Lemma X28_spaced_presses_all_switch_witness :
  cursor_ok zemia_world /\
  spaced_presses 0 [touch_down 5; touch_down 7; touch_down 9] = true /\
  started (snd (touch_loop Hosts.zemia_site
                  [touch_down 5; touch_down 7; touch_down 9] 0%Q
                  zemia_world)) = started zemia_world + 3.
Proof.
  assert (Hc : cursor_ok zemia_world) by (unfold cursor_ok; vm_compute; lia).
  assert (Hs : spaced_presses 0 [touch_down 5; touch_down 7; touch_down 9]
               = true) by reflexivity.
  split; [exact Hc|]. split; [exact Hs|].
  exact (X28_spaced_presses_all_switch Hosts.zemia_site zemia_world
           [touch_down 5; touch_down 7; touch_down 9] 0%Q Hc Hs).
Defined.
